(** * The appointment assistant's conversation graph

    A shallow embedding of [src/react_agent/graph.py] and
    [src/react_agent/tools.py]: the node functions, the routing functions
    attached to the conditional edges, the edge table and a small
    executor that threads the conversation state through them.

    Conventions.
    - Python [int] is [Z]; [str] is [string]; [list] is [list]. How Python
      reads text beyond ASCII as an integer is left to the environment.
    - A node returns a Python [dict] of the keys it updates: here a
      [gmap string Value].
    - A raised exception is the [Raise] branch of [Result]; only the
      exception class is kept, not its message text.
    - The language model, the clock, the tool implementations and the
      library formatters are fields of an environment record [Env], over
      which every theorem is universally quantified. *)

From Stdlib Require Import ZArith List Ascii String Bool Lia.
From Stdlib Require Import DecimalString DecimalPos DecimalZ.
From stdpp Require Import base option list gmap strings.

Local Open Scope Z_scope.
Local Open Scope string_scope.

(** ** Exceptions and the error monad *)

Inductive Exception : Type :=
| ValueError
| TypeError
| IndexError
| GraphRecursionError
| CollaboratorError (what : string).

Inductive Result (A : Type) : Type :=
| OK (a : A)
| Raise (e : Exception).

Arguments OK {A} a.
Arguments Raise {A} e.

Definition bind {A B : Type} (r : Result A) (k : A -> Result B) : Result B :=
  match r with
  | OK a => k a
  | Raise e => Raise e
  end.

Notation "'let!' x ':=' r 'in' k" := (bind r (fun x => k))
  (at level 10, x name, r at level 100, k at level 200).

Definition succeeds {A : Type} (r : Result A) : bool :=
  match r with
  | OK _ => true
  | Raise _ => false
  end.

(** ** Python's [int(str)], base 10, on ASCII text

    Leading and trailing white space is skipped, one sign is allowed, the
    digits may be grouped by single underscores, and a literal of more
    than [int_max_str_digits] digits is refused. Text with a character
    beyond ASCII is read by [py_int] below, with the environment's help. *)

Definition code (c : ascii) : nat := nat_of_ascii c.

Definition is_space (c : ascii) : bool :=
  ((9 <=? code c)%nat && (code c <=? 13)%nat) || (code c =? 32)%nat.

Definition is_digit (c : ascii) : bool :=
  (48 <=? code c)%nat && (code c <=? 57)%nat.

Definition is_underscore (c : ascii) : bool := (code c =? 95)%nat.

Definition digit_value (c : ascii) : Z := Z.of_nat (code c - 48).

Definition int_max_str_digits : nat := 4300.

Fixpoint is_ascii (s : string) : bool :=
  match s with
  | String c t => (code c <? 128)%nat && is_ascii t
  | EmptyString => true
  end.

Fixpoint skip_spaces (s : string) : string :=
  match s with
  | String c t => if is_space c then skip_spaces t else s
  | EmptyString => EmptyString
  end.

(** The digit loop: [prev_us] records that the previous character was an
    underscore; the result is the value read, the number of digits and
    the unread rest. *)
Fixpoint scan_digits (s : string) (prev_us : bool) (acc : Z) (digits : nat)
  : option (Z * nat * string) :=
  match s with
  | String c t =>
      if is_digit c then scan_digits t false (10 * acc + digit_value c) (S digits)
      else if is_underscore c then
        if prev_us then None else scan_digits t true acc digits
      else if prev_us then None else Some (acc, digits, s)
  | EmptyString => if prev_us then None else Some (acc, digits, EmptyString)
  end.

Definition split_sign (s : string) : Z * string :=
  match s with
  | String c t =>
      if (code c =? 43)%nat then (1, t)
      else if (code c =? 45)%nat then (-1, t)
      else (1, s)
  | EmptyString => (1, s)
  end.

Definition starts_with_underscore (s : string) : bool :=
  match s with
  | String c _ => is_underscore c
  | EmptyString => false
  end.

Definition py_int_ascii (s : string) : Result Z :=
  let '(sign, body) := split_sign (skip_spaces s) in
  if starts_with_underscore body then Raise ValueError
  else
    match scan_digits body false 0 0 with
    | None => Raise ValueError
    | Some (v, digits, rest) =>
        if (digits =? 0)%nat then Raise ValueError
        else if (int_max_str_digits <? digits)%nat then Raise ValueError
        else
          match skip_spaces rest with
          | EmptyString => OK (sign * v)
          | String _ _ => Raise ValueError
          end
    end.

(** ** Data model *)

(** [tools.Appointment]. *)
Record Appointment : Type := mkAppointment {
  id : Z;
  time : string;
  description : string
}.

(** A tool-call request carried by a model response. *)
Record ToolCall : Type := mkToolCall {
  tc_name : string;
  tc_args : string;
  tc_id : string
}.

(** The content of a message: text, or a list of content blocks, of
    which only Python's [str] rendering is kept. *)
Inductive Content : Type :=
| Text (s : string)
| Blocks (rendering : string).

Coercion Text : string >-> Content.

(** [str(content)], as an f-string inserts it. *)
Definition content_str (c : Content) : string :=
  match c with
  | Text s => s
  | Blocks rendering => rendering
  end.

(** [langchain_core.messages.AIMessage]: the fields the graph reads. *)
Record AIMessage : Type := mkAIMessage {
  ai_content : Content;
  tool_calls : list ToolCall;
  ai_id : option string
}.

(** The messages a conversation holds; [isinstance(m, AIMessage)] is the
    test for the [AI] constructor. *)
Inductive AnyMessage : Type :=
| Human (content : Content) (mid : option string)
| AI (m : AIMessage)
| System (content : Content) (mid : option string)
| Tool (content : Content) (tool_call_id : string) (mid : option string).

(** [msg.type] *)
Definition msg_type (m : AnyMessage) : string :=
  match m with
  | Human _ _ => "human"
  | AI _ => "ai"
  | System _ _ => "system"
  | Tool _ _ _ => "tool"
  end.

(** [msg.content] *)
Definition msg_content (m : AnyMessage) : Content :=
  match m with
  | Human c _ => c
  | AI a => ai_content a
  | System c _ => c
  | Tool c _ _ => c
  end.

Definition is_ai (m : AnyMessage) : bool :=
  match m with
  | AI _ => true
  | _ => false
  end.

(** [messages[-1]]: the last element, [IndexError] on the empty list. *)
Definition last_message (l : list AnyMessage) : Result AnyMessage :=
  match last l with
  | Some m => OK m
  | None => Raise IndexError
  end.

(** Modelled from the spec: the [State] dataclass of the missing
    [react_agent/state.py]; its fields are those of section 3
    (ConversationState). *)
Record State : Type := mkState {
  messages : list AnyMessage;
  router_stage : Z;
  reschedule_or_cancel_decision : Z;
  appointments : list Appointment;
  appointment_id : Z;
  is_last_step : bool
}.

(** The values a node's update dictionary can hold. *)
Inductive Value : Type :=
| VInt (n : Z)
| VMessages (l : list AnyMessage)
| VAppointments (l : list Appointment).

(** Modelled from the spec: how the orchestrator merges the partial
    update a node returns into the running state (section 3, Lifecycle,
    and sections 4.4 and 4.6): messages under the key [messages] are
    appended to the history, every other key overwrites its field, and
    [is_last_step] belongs to the scheduler, not to the nodes. *)
Definition apply_update (s : State) (u : gmap string Value) : State :=
  {| messages :=
       match u !! "messages" with
       | Some (VMessages new) => messages s ++ new
       | _ => messages s
       end;
     router_stage :=
       match u !! "router_stage" with
       | Some (VInt n) => n
       | _ => router_stage s
       end;
     reschedule_or_cancel_decision :=
       match u !! "reschedule_or_cancel_decision" with
       | Some (VInt n) => n
       | _ => reschedule_or_cancel_decision s
       end;
     appointments :=
       match u !! "appointments" with
       | Some (VAppointments l) => l
       | _ => appointments s
       end;
     appointment_id :=
       match u !! "appointment_id" with
       | Some (VInt n) => n
       | _ => appointment_id s
       end;
     is_last_step := is_last_step s |}.

(** ** Collaborators

    Everything the graph calls but does not define. *)

(** Modelled from the spec: the run configuration of the missing
    [react_agent/configuration.py] (section 6: model selection, prompt
    template text and tool-limit parameters). *)
Record Configuration : Type := mkConfiguration {
  model : string;
  system_prompt : string;
  max_search_results : nat
}.

(** What a chat model is invoked with: a role/content dictionary or a
    message of the history. *)
Inductive ChatInput : Type :=
| RoleContent (role content : string)
| FromHistory (m : AnyMessage).

(** The three classifier prompt texts of [prompts.py]; their wording plays
    no part in the control flow. *)
Record Prompts : Type := mkPrompts {
  ROUTER_PROMPT : string;
  DETERMINE_RESCHEDULE_OR_CANCEL_PROMPT : string;
  DETERMINE_APPOINTMENT_PROMPT : string
}.

Record Env : Type := mkEnv {
  (** [load_chat_model(name).bind_tools(tools).ainvoke(input, config)];
      the list of tool names is empty when no tool is bound. *)
  ainvoke : string -> list string -> list ChatInput -> Result AIMessage;
  (** [datetime.now(tz=timezone.utc).isoformat()] *)
  utc_now_isoformat : string;
  (** [template.format] with keyword fields *)
  str_format : string -> list (string * string) -> string;
  (** [str(state.appointments)] *)
  str_of_appointments : list Appointment -> string;
  (** the implementation behind a tool-call request, as run by the
      prebuilt [ToolNode] *)
  execute_tool : ToolCall -> string;
  prompts : Prompts;
  (** [int(text)] on text that is not all ASCII, where Python consults
      its Unicode tables for digits and white space of other scripts:
      the integer read, or nothing for [ValueError] *)
  int_of_unicode : string -> option Z
}.

(** [int(content)]: a [TypeError] on content that is not text; on ASCII
    text the grammar above; on other text what the environment says. *)
Definition py_int (env : Env) (content : Content) : Result Z :=
  match content with
  | Text s =>
      if is_ascii s then py_int_ascii s
      else
        match int_of_unicode env s with
        | Some n => OK n
        | None => Raise ValueError
        end
  | Blocks _ => Raise TypeError
  end.

(** [tools.TOOLS], by name. *)
Definition TOOLS : list string := ["search"; "get_appointments"].

(** [tools.get_appointments] *)
Definition get_appointments (config : Configuration) : list Appointment :=
  [ mkAppointment 1 "2025-01-01 10:00:00" "Home cleaning service";
    mkAppointment 2 "2025-01-05 14:00:00" "Plumbing repair" ].

(** ** Nodes *)

Abbreviation Update := (gmap string Value).

Section Nodes.

Context (env : Env).

Definition history (s : State) : list ChatInput :=
  map FromHistory (messages s).

(** The input [router] sends to the model. *)
Definition router_input (s : State) : list ChatInput :=
  RoleContent "system" (ROUTER_PROMPT (prompts env)) :: history s.

Definition router (s : State) (config : Configuration) : Result Update :=
  let! response := ainvoke env (model config) [] (router_input s) in
  let! stage := py_int env (ai_content response) in
  OK {[ "router_stage" := VInt stage ]}.

Definition determine_reschedule_or_cancel (s : State) (config : Configuration)
  : Result Update :=
  let! response :=
    ainvoke env (model config) []
      (RoleContent "system" (DETERMINE_RESCHEDULE_OR_CANCEL_PROMPT (prompts env))
         :: history s) in
  let! reschedule_or_cancel := py_int env (ai_content response) in
  OK {[ "reschedule_or_cancel_decision" := VInt reschedule_or_cancel ]}.

Definition reschedule_message_node (s : State) (config : Configuration)
  : Result Update :=
  let message := mkAIMessage "Let me escalate this with a real person." [] None in
  OK {[ "messages" := VMessages [AI message] ]}.

(** [get_appointments_node], over the data source it calls. *)
Definition get_appointments_node_with
    (fetch : Configuration -> Result (list Appointment))
    (s : State) (config : Configuration) : Result Update :=
  let! appointments := fetch config in
  OK {[ "appointments" := VAppointments appointments ]}.

(** The node as the graph registers it: the data source is
    [tools.get_appointments]. *)
Definition get_appointments_node (s : State) (config : Configuration)
  : Result Update :=
  get_appointments_node_with (fun cfg => OK (get_appointments cfg)) s config.

Definition suggest_reschedule_node (s : State) (config : Configuration)
  : Result Update :=
  let response_message :=
    mkAIMessage
      "I would love to cancel the appointment but would you like to reschedule instead?"
      [] None in
  OK {[ "messages" := VMessages [AI response_message] ]}.

Definition dquote : string := String (ascii_of_nat 34) EmptyString.
Definition newline : string := String (ascii_of_nat 10) EmptyString.

(** [sep.join(parts)] *)
Fixpoint join (sep : string) (parts : list string) : string :=
  match parts with
  | [] => EmptyString
  | [p] => p
  | p :: rest => p ++ sep ++ join sep rest
  end.

(** The input [determine_appointment_to_cancel] sends to the model. *)
Definition determine_appointment_input (s : State) : list ChatInput :=
  let appointments_str := str_of_appointments env (appointments s) in
  let messages_str :=
    join newline
      (map (fun msg =>
              msg_type msg ++ ": " ++ dquote ++ content_str (msg_content msg) ++ dquote)
           (messages s)) in
  let formatted_prompt :=
    str_format env (DETERMINE_APPOINTMENT_PROMPT (prompts env))
      [("appointments", appointments_str); ("messages", messages_str)] in
  [ RoleContent "system" formatted_prompt;
    RoleContent "user" "Determine which appointment to cancel." ].

Definition determine_appointment_to_cancel (s : State) (config : Configuration)
  : Result Update :=
  let! response := ainvoke env (model config) [] (determine_appointment_input s) in
  let! appointment_id := py_int env (ai_content response) in
  OK {[ "appointment_id" := VInt appointment_id ]}.

Definition confirmation_message_node (s : State) (config : Configuration)
  : Result Update :=
  let confirmation_message :=
    mkAIMessage "I will cancel the appointment for you! Thank you!" [] None in
  OK {[ "messages" := VMessages [AI confirmation_message] ]}.

Definition fallback_text : string :=
  "Sorry, I could not find an answer to your question in the specified number of steps.".

(** Python truth value of a list. *)
Definition truthy {A : Type} (l : list A) : bool :=
  match l with
  | [] => false
  | _ :: _ => true
  end.

(** The input [call_model] sends to the model. *)
Definition call_model_input (s : State) (config : Configuration) : list ChatInput :=
  let system_message :=
    str_format env (system_prompt config)
      [("system_time", utc_now_isoformat env)] in
  RoleContent "system" system_message :: history s.

Definition call_model (s : State) (config : Configuration) : Result Update :=
  let! response := ainvoke env (model config) TOOLS (call_model_input s config) in
  if is_last_step s && truthy (tool_calls response) then
    OK {[ "messages" :=
            VMessages [AI (mkAIMessage fallback_text [] (ai_id response))] ]}
  else
    OK {[ "messages" := VMessages [AI response] ]}.

(** Modelled from the spec: the prebuilt tool-execution node
    [ToolNode(TOOLS)] of the orchestration library (section 4.4, step
    C): every tool-call request of the last model response is run and
    its result becomes one tool-result message. *)
Definition tools_node (s : State) (config : Configuration) : Result Update :=
  let! last_msg := last_message (messages s) in
  match last_msg with
  | AI m =>
      OK {[ "messages" :=
              VMessages
                (map (fun tc => Tool (execute_tool env tc) (tc_id tc) None)
                     (tool_calls m)) ]}
  | _ => Raise ValueError
  end.

End Nodes.

(** ** Routing functions *)

(** [route_from_router]: the line it prints and the node name it returns. *)
Definition route_from_router (s : State) : string * string :=
  let stage := router_stage s in
  if (stage =? 1)%Z then ("Stage 1", "get_appointments_node")
  else if (stage =? 2)%Z then ("Stage 2", "call_model")
  else ("Stage 3", "determine_reschedule_or_cancel").

Definition route_model_output (s : State) : Result string :=
  let! last_msg := last_message (messages s) in
  match last_msg with
  | AI m => if negb (truthy (tool_calls m)) then OK "__end__" else OK "tools"
  | _ => Raise ValueError
  end.

Definition route_after_reschedule_or_cancel (s : State) : string :=
  if (reschedule_or_cancel_decision s =? 2)%Z then "determine_appointment_to_cancel"
  else "reschedule_message_node".

(** ** The graph *)

Definition NodeFn : Type := State -> Configuration -> Result Update.

(** [builder.add_node(name, fn)] *)
Definition nodes (env : Env) : list (string * NodeFn) :=
  [ ("router", router env);
    ("call_model", call_model env);
    ("tools", tools_node env);
    ("get_appointments_node", get_appointments_node);
    ("suggest_reschedule_node", suggest_reschedule_node);
    ("determine_reschedule_or_cancel", determine_reschedule_or_cancel env);
    ("determine_appointment_to_cancel", determine_appointment_to_cancel env);
    ("confirmation_message_node", confirmation_message_node);
    ("reschedule_message_node", reschedule_message_node) ].

(** [builder.add_edge(source, target)], in source order. *)
Definition edges : list (string * string) :=
  [ ("__start__", "router");
    ("get_appointments_node", "suggest_reschedule_node");
    ("determine_appointment_to_cancel", "confirmation_message_node");
    ("confirmation_message_node", "__end__");
    ("suggest_reschedule_node", "__end__");
    ("tools", "call_model");
    ("reschedule_message_node", "__end__") ].

(** [builder.add_conditional_edges(source, path)] *)
Definition conditional_edges : list (string * (State -> Result string)) :=
  [ ("router", fun s => OK (snd (route_from_router s)));
    ("call_model", route_model_output);
    ("determine_reschedule_or_cancel",
      fun s => OK (route_after_reschedule_or_cancel s)) ].

(** First entry of an association list under a name. *)
Fixpoint assoc {A : Type} (name : string) (table : list (string * A)) : option A :=
  match table with
  | [] => None
  | (k, v) :: rest => if String.eqb k name then Some v else assoc name rest
  end.

(** ** The executor *)

Definition set_is_last_step (s : State) (b : bool) : State :=
  {| messages := messages s;
     router_stage := router_stage s;
     reschedule_or_cancel_decision := reschedule_or_cancel_decision s;
     appointments := appointments s;
     appointment_id := appointment_id s;
     is_last_step := b |}.

(** The node that runs after [name], given the state [name] left behind. *)
Definition next_node (name : string) (s : State) : Result string :=
  match assoc name conditional_edges with
  | Some path => path s
  | None =>
      match assoc name edges with
      | Some target => OK target
      | None => Raise ValueError
      end
  end.

(** One node: run it, merge its update, pick the successor. *)
Definition step (env : Env) (config : Configuration) (name : string) (s : State)
  : Result (State * string) :=
  match assoc name (nodes env) with
  | None => Raise ValueError
  | Some fn =>
      let! u := fn s config in
      let s' := apply_update s u in
      let! target := next_node name s' in
      OK (s', target)
  end.

(** Modelled from the spec: the orchestrator's scheduler (sections 3 and
    4.7). It runs one node per step from [name] until [__end__], records
    the nodes it ran, raises [is_last_step] on the last step its budget
    allows, and gives up with [GraphRecursionError] past the budget. *)
Fixpoint run (env : Env) (config : Configuration) (budget : nat)
    (name : string) (s : State) (visited : list string)
  : Result (State * list string) :=
  if String.eqb name "__end__" then OK (s, visited)
  else
    match budget with
    | O => Raise GraphRecursionError
    | S budget' =>
        let! after :=
          step env config name (set_is_last_step s (budget' =? 0)%nat) in
        run env config budget' (snd after) (fst after) (visited ++ [name])
    end.

(** Modelled from the spec: the state a run starts from (section 3,
    Lifecycle): empty except for the seed messages; the integer fields no
    node has written yet hold 0. *)
Definition initial_state (seed : list AnyMessage) : State :=
  mkState seed 0 0 [] 0 false.

(** A whole run: from the entry point, over the seed messages. *)
Definition invoke (env : Env) (config : Configuration) (budget : nat)
    (seed : list AnyMessage) : Result (State * list string) :=
  let! entry := next_node "__start__" (initial_state seed) in
  run env config budget entry (initial_state seed) [].

(** ** A scripted environment

    A model that answers each classifier prompt with a fixed text and the
    agent prompt with a fixed response; used to run the graph on concrete
    conversations. *)

Definition demo_prompts : Prompts :=
  mkPrompts "ROUTER" "RESCHEDULE_OR_CANCEL" "APPOINTMENT".

Definition first_content (input : list ChatInput) : string :=
  match input with
  | RoleContent _ c :: _ => c
  | _ => EmptyString
  end.

Definition scripted_model (stage decision appointment : string) (agent : AIMessage)
    (name : string) (bound : list string) (input : list ChatInput) : Result AIMessage :=
  let ask := first_content input in
  if String.eqb ask "ROUTER" then OK (mkAIMessage stage [] (Some "run-1"))
  else if String.eqb ask "RESCHEDULE_OR_CANCEL" then OK (mkAIMessage decision [] (Some "run-2"))
  else if String.eqb ask "APPOINTMENT" then OK (mkAIMessage appointment [] (Some "run-3"))
  else OK agent.

Definition scripted_env (stage decision appointment : string) (agent : AIMessage) : Env :=
  mkEnv (scripted_model stage decision appointment agent)
        "2025-01-01T00:00:00+00:00"
        (fun template _ => template)
        (fun _ => "[]")
        (fun tc => "result of " ++ tc_name tc)
        demo_prompts
        (fun _ => None).

Definition demo_config : Configuration :=
  mkConfiguration "demo-model" "You are a helpful AI assistant." 10.

Definition plain_answer : AIMessage :=
  mkAIMessage "Here is your answer." [] (Some "run-4").

Definition wants_tool : AIMessage :=
  mkAIMessage "" [mkToolCall "search" "{}" "call-1"] (Some "run-5").

Definition opening : list AnyMessage :=
  [Human "I want to cancel my appointment" None].

(** ** Merging single-key updates *)

Lemma apply_update_messages (s : State) (new : list AnyMessage) :
  apply_update s {[ "messages" := VMessages new ]} =
  mkState (messages s ++ new) (router_stage s) (reschedule_or_cancel_decision s)
          (appointments s) (appointment_id s) (is_last_step s).
Proof.
  unfold apply_update.
  rewrite lookup_singleton_eq, !lookup_singleton_ne by done.
  reflexivity.
Qed.

Lemma apply_update_router_stage (s : State) (n : Z) :
  apply_update s {[ "router_stage" := VInt n ]} =
  mkState (messages s) n (reschedule_or_cancel_decision s)
          (appointments s) (appointment_id s) (is_last_step s).
Proof.
  unfold apply_update.
  rewrite lookup_singleton_eq, !lookup_singleton_ne by done.
  reflexivity.
Qed.

Lemma apply_update_decision (s : State) (n : Z) :
  apply_update s {[ "reschedule_or_cancel_decision" := VInt n ]} =
  mkState (messages s) (router_stage s) n
          (appointments s) (appointment_id s) (is_last_step s).
Proof.
  unfold apply_update.
  rewrite lookup_singleton_eq, !lookup_singleton_ne by done.
  reflexivity.
Qed.

Lemma apply_update_appointments (s : State) (l : list Appointment) :
  apply_update s {[ "appointments" := VAppointments l ]} =
  mkState (messages s) (router_stage s) (reschedule_or_cancel_decision s)
          l (appointment_id s) (is_last_step s).
Proof.
  unfold apply_update.
  rewrite lookup_singleton_eq, !lookup_singleton_ne by done.
  reflexivity.
Qed.

Lemma apply_update_appointment_id (s : State) (n : Z) :
  apply_update s {[ "appointment_id" := VInt n ]} =
  mkState (messages s) (router_stage s) (reschedule_or_cancel_decision s)
          (appointments s) n (is_last_step s).
Proof.
  unfold apply_update.
  rewrite lookup_singleton_eq, !lookup_singleton_ne by done.
  reflexivity.
Qed.


Lemma set_is_last_step_same (s : State) :
  set_is_last_step s (is_last_step s) = s.
Proof. by destruct s. Qed.

Lemma truthy_nonempty {A : Type} (l : list A) : truthy l = true <-> l <> [].
Proof. destruct l; simpl; split; intros; try done. Qed.

Lemma truthy_empty {A : Type} (l : list A) : truthy l = false <-> l = [].
Proof. destruct l; simpl; split; intros; try done. Qed.

(** ** Routing after the stage router *)

(** C2: the routing function after the stage router returns the
    fetch-appointments node exactly when [router_stage] is 1, the agent
    node exactly when it is 2, the reschedule-or-cancel classifier exactly
    when it is neither (3 and every out-of-range value), and never
    anything else; the graph follows that answer. *)
Theorem route_from_router_table (s : State) :
  let target := snd (route_from_router s) in
  (target = "get_appointments_node" <-> router_stage s = 1) /\
  (target = "call_model" <-> router_stage s = 2) /\
  (target = "determine_reschedule_or_cancel" <->
     router_stage s <> 1 /\ router_stage s <> 2) /\
  (target = "get_appointments_node" \/ target = "call_model" \/
     target = "determine_reschedule_or_cancel") /\
  next_node "router" s = OK target.
Proof.
  intros target.
  assert (Hnext : next_node "router" s = OK target) by reflexivity.
  revert Hnext. unfold target, route_from_router.
  destruct (Z.eqb_spec (router_stage s) 1) as [H1 | H1];
    [| destruct (Z.eqb_spec (router_stage s) 2) as [H2 | H2]];
    simpl; intros Hnext; repeat split; intros; try discriminate; try lia; auto;
    try (match goal with H : _ /\ _ |- _ => destruct H; congruence end).
Qed.

(** ** Routing after the agent node *)

Lemma route_model_output_ai (s : State) (m : AIMessage) :
  last (messages s) = Some (AI m) ->
  route_model_output s = if truthy (tool_calls m) then OK "tools" else OK "__end__".
Proof.
  intros Hlast. unfold route_model_output, last_message.
  rewrite Hlast; simpl. by destruct (truthy (tool_calls m)).
Qed.

(** C6: when the last message is a model response, the routing function
    after the agent node returns the end state exactly when the response
    carries no tool-call request and the tool-execution node exactly when
    it carries at least one; and the tool-execution node always leads back
    to the agent node. *)
Theorem route_model_output_table (s : State) (m : AIMessage) :
  last (messages s) = Some (AI m) ->
  (route_model_output s = OK "__end__" <-> tool_calls m = []) /\
  (route_model_output s = OK "tools" <-> tool_calls m <> []) /\
  next_node "call_model" s = route_model_output s /\
  (forall s' : State, next_node "tools" s' = OK "call_model").
Proof.
  intros Hlast.
  assert (Hedge : next_node "call_model" s = route_model_output s) by reflexivity.
  revert Hedge. rewrite (route_model_output_ai s m Hlast).
  destruct (tool_calls m) as [| tc rest]; simpl; intros Hedge;
    repeat split; intros; try discriminate; try congruence; auto.
Qed.

Lemma route_model_output_table_witness :
  let s := mkState [Human "hello" None; AI wants_tool] 2 0 [] 0 false in
  last (messages s) = Some (AI wants_tool) /\
  route_model_output s = OK "tools".
Proof.
  split; [reflexivity |].
  destruct (route_model_output_table
              (mkState [Human "hello" None; AI wants_tool] 2 0 [] 0 false)
              wants_tool eq_refl) as [_ [Htools _]].
  apply Htools. discriminate.
Defined.

(** C10: when the last message is not a model response, the routing
    function after the agent node raises [ValueError] instead of naming a
    node; it names a node only when the last message is a model
    response. *)
Theorem route_model_output_requires_ai (s : State) :
  (forall m : AnyMessage,
     last (messages s) = Some m -> is_ai m = false ->
     route_model_output s = Raise ValueError) /\
  (forall target : string,
     route_model_output s = OK target ->
     exists a : AIMessage, last (messages s) = Some (AI a)).
Proof.
  unfold route_model_output, last_message. split.
  - intros m Hlast Hai. rewrite Hlast; simpl.
    destruct m; simpl in *; try discriminate; reflexivity.
  - intros target. destruct (last (messages s)) as [m |]; simpl; [| discriminate].
    destruct m; try discriminate. intros _. by eexists.
Qed.

Lemma route_model_output_requires_ai_witness :
  let s := mkState [Human "hello" None; Tool "42" "call-1" None] 2 0 [] 0 false in
  last (messages s) = Some (Tool "42" "call-1" None) /\
  is_ai (Tool "42" "call-1" None) = false /\
  route_model_output s = Raise ValueError.
Proof.
  split; [reflexivity | split; [reflexivity |]].
  apply (proj1 (route_model_output_requires_ai
                  (mkState [Human "hello" None; Tool "42" "call-1" None] 2 0 [] 0 false))
               (Tool "42" "call-1" None)); reflexivity.
Defined.

(** ** Terminal message nodes *)

Definition escalation_message : AnyMessage :=
  AI (mkAIMessage "Let me escalate this with a real person." [] None).

Definition suggestion_message : AnyMessage :=
  AI (mkAIMessage
        "I would love to cancel the appointment but would you like to reschedule instead?"
        [] None).

Definition confirmation_message : AnyMessage :=
  AI (mkAIMessage "I will cancel the appointment for you! Thank you!" [] None).

Definition appended (s : State) (m : AnyMessage) : State :=
  mkState (messages s ++ [m]) (router_stage s) (reschedule_or_cancel_decision s)
          (appointments s) (appointment_id s) (is_last_step s).

(** C8: on every input state each terminal message node returns an update
    holding exactly one assistant message with its fixed text, and merging
    it appends that message and changes no other field. *)
Theorem terminal_message_nodes (s : State) (config : Configuration) :
  (reschedule_message_node s config = OK {[ "messages" := VMessages [escalation_message] ]} /\
   apply_update s {[ "messages" := VMessages [escalation_message] ]} =
     appended s escalation_message) /\
  (suggest_reschedule_node s config = OK {[ "messages" := VMessages [suggestion_message] ]} /\
   apply_update s {[ "messages" := VMessages [suggestion_message] ]} =
     appended s suggestion_message) /\
  (confirmation_message_node s config =
     OK {[ "messages" := VMessages [confirmation_message] ]} /\
   apply_update s {[ "messages" := VMessages [confirmation_message] ]} =
     appended s confirmation_message).
Proof.
  repeat split; try reflexivity; apply apply_update_messages.
Qed.

(** ** The executor, one step at a time *)

Lemma run_end (env : Env) (config : Configuration) (budget : nat)
    (s : State) (visited : list string) :
  run env config budget "__end__" s visited = OK (s, visited).
Proof. by destruct budget. Qed.

Lemma run_step (env : Env) (config : Configuration) (budget : nat)
    (name target : string) (s s' : State) (visited : list string) :
  name <> "__end__" ->
  step env config name (set_is_last_step s (budget =? 0)%nat) = OK (s', target) ->
  run env config (S budget) name s visited =
  run env config budget target s' (visited ++ [name]).
Proof.
  intros Hname Hstep. simpl.
  apply String.eqb_neq in Hname. rewrite Hname, Hstep. reflexivity.
Qed.

Lemma step_node (env : Env) (config : Configuration) (name target : string)
    (fn : NodeFn) (s : State) (u : Update) :
  assoc name (nodes env) = Some fn ->
  fn s config = OK u ->
  next_node name (apply_update s u) = OK target ->
  step env config name s = OK (apply_update s u, target).
Proof.
  intros Hfn Hu Hnext. unfold step. rewrite Hfn, Hu; simpl.
  rewrite Hnext. reflexivity.
Qed.

(** ** The appointment fetch node *)

Definition fixture : list Appointment :=
  [ mkAppointment 1 "2025-01-01 10:00:00" "Home cleaning service";
    mkAppointment 2 "2025-01-05 14:00:00" "Plumbing repair" ].

(** C5: whatever list the data source returns, the fetch node stores
    exactly that list: its update carries the returned list, same
    elements in the same order, and merging it leaves exactly that list
    in the state and every other field alone. The node the graph
    registers calls [get_appointments], so it stores the two fixture
    appointments, ids 1 and 2 in that order. *)
Theorem get_appointments_node_stores_verbatim
    (fetch : Configuration -> Result (list Appointment))
    (s : State) (config : Configuration) (fetched : list Appointment) :
  fetch config = OK fetched ->
  get_appointments_node_with fetch s config =
    OK {[ "appointments" := VAppointments fetched ]} /\
  apply_update s {[ "appointments" := VAppointments fetched ]} =
    mkState (messages s) (router_stage s) (reschedule_or_cancel_decision s)
            fetched (appointment_id s) (is_last_step s) /\
  get_appointments_node s config =
    get_appointments_node_with (fun cfg => OK (get_appointments cfg)) s config /\
  get_appointments_node s config = OK {[ "appointments" := VAppointments fixture ]} /\
  appointments (apply_update s {[ "appointments" := VAppointments fixture ]}) =
    fixture /\
  map id fixture = [1; 2].
Proof.
  intros Hfetch.
  split; [unfold get_appointments_node_with; by rewrite Hfetch |].
  split; [apply apply_update_appointments |].
  split; [reflexivity |].
  split; [reflexivity |].
  split; [by rewrite apply_update_appointments | reflexivity].
Qed.

Definition later_first : list Appointment :=
  [ mkAppointment 2 "2025-01-05 14:00:00" "Plumbing repair";
    mkAppointment 1 "2025-01-01 10:00:00" "Home cleaning service";
    mkAppointment 2 "2025-01-05 14:00:00" "Plumbing repair" ].

Lemma get_appointments_node_stores_verbatim_witness :
  let s := mkState opening 1 0 [] 0 false in
  get_appointments_node_with (fun _ => OK later_first) s demo_config =
    OK {[ "appointments" := VAppointments later_first ]} /\
  appointments (apply_update s {[ "appointments" := VAppointments later_first ]}) =
    later_first.
Proof.
  destruct (get_appointments_node_stores_verbatim
              (fun _ => OK later_first) (mkState opening 1 0 [] 0 false)
              demo_config later_first eq_refl) as (Hnode & Hmerge & _).
  split; [exact Hnode | by rewrite Hmerge].
Defined.

(** ** Routing after the reschedule-or-cancel classifier *)

(** C7: the routing function after the reschedule-or-cancel classifier
    returns the appointment-selection node exactly when the decision is 2
    and the escalation node for every other value; in the escalation case
    the rest of the run is the escalation node alone, so the
    appointment-selection classifier is never called. *)
Theorem route_after_reschedule_or_cancel_table
    (env : Env) (config : Configuration) (s : State) :
  (route_after_reschedule_or_cancel s = "determine_appointment_to_cancel" <->
     reschedule_or_cancel_decision s = 2) /\
  (route_after_reschedule_or_cancel s = "reschedule_message_node" <->
     reschedule_or_cancel_decision s <> 2) /\
  next_node "determine_reschedule_or_cancel" s =
    OK (route_after_reschedule_or_cancel s) /\
  (reschedule_or_cancel_decision s <> 2 ->
   forall (budget : nat) (visited : list string),
     run env config (S budget) (route_after_reschedule_or_cancel s) s visited =
     OK (appended (set_is_last_step s (budget =? 0)%nat) escalation_message,
         (visited ++ ["reschedule_message_node"])%list)).
Proof.
  assert (Hedge : next_node "determine_reschedule_or_cancel" s =
                  OK (route_after_reschedule_or_cancel s)) by reflexivity.
  revert Hedge. unfold route_after_reschedule_or_cancel.
  destruct (Z.eqb_spec (reschedule_or_cancel_decision s) 2) as [H2 | H2];
    intros Hedge; repeat split; intros; try discriminate; try congruence; auto.
  erewrite run_step; [apply run_end | discriminate |].
  unfold step; simpl. rewrite apply_update_messages. reflexivity.
Qed.

Lemma route_after_reschedule_or_cancel_table_witness :
  let s := mkState opening 3 1 [] 0 false in
  reschedule_or_cancel_decision s <> 2 /\
  run (scripted_env "3" "1" "-1" plain_answer) demo_config 5
      (route_after_reschedule_or_cancel s) s
      ["router"; "determine_reschedule_or_cancel"] =
  OK (appended s escalation_message,
      ["router"; "determine_reschedule_or_cancel"; "reschedule_message_node"]).
Proof.
  split; [discriminate |].
  destruct (route_after_reschedule_or_cancel_table
              (scripted_env "3" "1" "-1" plain_answer) demo_config
              (mkState opening 3 1 [] 0 false)) as [_ [_ [_ Hrun]]].
  apply (Hrun ltac:(discriminate) 4%nat ["router"; "determine_reschedule_or_cancel"]).
Defined.

(** ** The agent node and the step budget *)

Lemma call_model_input_last_step (env : Env) (config : Configuration)
    (s : State) (b : bool) :
  call_model_input env (set_is_last_step s b) config = call_model_input env s config.
Proof. reflexivity. Qed.

(** What the agent node returns, by cases on the model's answer. *)
Lemma call_model_cases (env : Env) (config : Configuration) (s : State) (r : AIMessage) :
  ainvoke env (model config) TOOLS (call_model_input env s config) = OK r ->
  call_model env s config =
  OK {[ "messages" :=
          VMessages
            [AI (if is_last_step s && truthy (tool_calls r)
                 then mkAIMessage fallback_text [] (ai_id r)
                 else r)] ]}.
Proof.
  intros Hr. unfold call_model. rewrite Hr; simpl.
  by destruct (is_last_step s && truthy (tool_calls r)).
Qed.

(** C1: when [is_last_step] is true and the model's response carries a
    tool-call request, the agent node returns the single fixed fallback
    message, with the apology text spelled out below and the response's
    identifier; merging it appends that message, the routing function
    then names the end state, and the run stops there having visited the
    agent node only, so no tool is executed. *)
Theorem call_model_budget_exhausted
    (env : Env) (config : Configuration) (s : State) (r : AIMessage) :
  is_last_step s = true ->
  ainvoke env (model config) TOOLS (call_model_input env s config) = OK r ->
  tool_calls r <> [] ->
  let fallback :=
    AI (mkAIMessage
          "Sorry, I could not find an answer to your question in the specified number of steps."
          [] (ai_id r)) in
  call_model env s config = OK {[ "messages" := VMessages [fallback] ]} /\
  step env config "call_model" s = OK (appended s fallback, "__end__") /\
  (forall visited : list string,
     run env config 1 "call_model" s visited =
     OK (appended s fallback, (visited ++ ["call_model"])%list)).
Proof.
  intros Hlast Hr Hcalls fallback.
  assert (Hnode : call_model env s config = OK {[ "messages" := VMessages [fallback] ]}).
  { rewrite (call_model_cases env config s r Hr), Hlast.
    apply truthy_nonempty in Hcalls. rewrite Hcalls. reflexivity. }
  assert (Hstep : step env config "call_model" s = OK (appended s fallback, "__end__")).
  { unfold step; simpl. rewrite Hnode; simpl.
    rewrite apply_update_messages.
    unfold next_node; simpl. unfold route_model_output, last_message; simpl.
    rewrite last_snoc. reflexivity. }
  split; [exact Hnode | split; [exact Hstep |]].
  intros visited.
  erewrite run_step; [apply run_end | discriminate |].
  assert (Hsame : set_is_last_step s true = s).
  { destruct s; simpl in Hlast; subst; reflexivity. }
  change (0 =? 0)%nat with true. rewrite Hsame. exact Hstep.
Qed.

Lemma call_model_budget_exhausted_witness :
  let env := scripted_env "2" "1" "-1" wants_tool in
  let s := mkState opening 2 0 [] 0 true in
  let fallback :=
    AI (mkAIMessage
          "Sorry, I could not find an answer to your question in the specified number of steps."
          [] (Some "run-5")) in
  is_last_step s = true /\
  ainvoke env (model demo_config) TOOLS (call_model_input env s demo_config) =
    OK wants_tool /\
  tool_calls wants_tool <> [] /\
  call_model env s demo_config = OK {[ "messages" := VMessages [fallback] ]} /\
  step env demo_config "call_model" s = OK (appended s fallback, "__end__").
Proof.
  split; [reflexivity | split; [reflexivity | split; [discriminate |]]].
  destruct (call_model_budget_exhausted
              (scripted_env "2" "1" "-1" wants_tool) demo_config
              (mkState opening 2 0 [] 0 true) wants_tool
              eq_refl eq_refl ltac:(discriminate)) as [Hnode [Hstep _]].
  split; [exact Hnode | exact Hstep].
Defined.

(** ** The unresolved-appointment sentinel *)

(** C3 (what the code does): when the appointment-selection classifier
    answers with the sentinel -1, the node stores -1 and the run goes on
    to the confirmation node, which appends the cancellation
    confirmation. *)
Theorem sentinel_reaches_confirmation
    (env : Env) (config : Configuration) (s : State) (r : AIMessage)
    (budget : nat) (visited : list string) :
  ainvoke env (model config) [] (determine_appointment_input env s) = OK r ->
  py_int env (ai_content r) = OK (-1) ->
  exists s' : State,
    run env config (S (S budget)) "determine_appointment_to_cancel" s visited =
      OK (s', (visited ++ ["determine_appointment_to_cancel";
                           "confirmation_message_node"])%list) /\
    appointment_id s' = -1 /\
    messages s' = (messages s ++ [confirmation_message])%list.
Proof.
  intros Hr Hint. eexists.
  replace (visited ++ ["determine_appointment_to_cancel"; "confirmation_message_node"])%list
    with ((visited ++ ["determine_appointment_to_cancel"]) ++
          ["confirmation_message_node"])%list
    by (rewrite <- app_assoc; reflexivity).
  split.
  - erewrite run_step; [| discriminate |].
    + erewrite run_step; [apply run_end | discriminate |].
      unfold step; simpl. rewrite apply_update_messages. reflexivity.
    + eapply step_node; [reflexivity | | reflexivity].
      unfold determine_appointment_to_cancel.
      change (determine_appointment_input env (set_is_last_step s (S budget =? 0)%nat))
        with (determine_appointment_input env s).
      rewrite Hr; simpl. rewrite Hint; simpl. reflexivity.
  - rewrite apply_update_appointment_id. split; reflexivity.
Qed.

Lemma sentinel_reaches_confirmation_witness :
  let env := scripted_env "3" "2" "-1" plain_answer in
  let s := mkState opening 3 2 [] 0 false in
  exists s' : State,
    run env demo_config 4 "determine_appointment_to_cancel" s
        ["router"; "determine_reschedule_or_cancel"] =
      OK (s', ["router"; "determine_reschedule_or_cancel";
               "determine_appointment_to_cancel"; "confirmation_message_node"]) /\
    appointment_id s' = -1 /\
    messages s' = (opening ++ [confirmation_message])%list.
Proof.
  apply (sentinel_reaches_confirmation
           (scripted_env "3" "2" "-1" plain_answer) demo_config
           (mkState opening 3 2 [] 0 false)
           (mkAIMessage "-1" [] (Some "run-3")) 2%nat
           ["router"; "determine_reschedule_or_cancel"]); reflexivity.
Defined.

(** ** The stage router and its classifier output *)

Lemma py_int_ascii_raises (content : string) (e : Exception) :
  py_int_ascii content = Raise e -> e = ValueError.
Proof.
  unfold py_int_ascii.
  destruct (split_sign (skip_spaces content)) as [sign body].
  destruct (starts_with_underscore body); [congruence |].
  destruct (scan_digits body false 0 0) as [[[v digits] rest] |]; [| congruence].
  destruct (digits =? 0)%nat; [congruence |].
  destruct (int_max_str_digits <? digits)%nat; [congruence |].
  destruct (skip_spaces rest); congruence.
Qed.

(** A single decimal digit is read as its value. *)
Lemma py_int_ascii_digit (d : nat) :
  (d < 10)%nat ->
  py_int_ascii (String (ascii_of_nat (48 + d)) EmptyString) = OK (Z.of_nat d).
Proof.
  intros Hd.
  do 10 (destruct d as [| d]; [reflexivity |]). lia.
Qed.

(** What [int] can raise, by the kind of content. *)
Lemma py_int_raises (env : Env) (content : Content) (e : Exception) :
  py_int env content = Raise e ->
  match content with
  | Text _ => e = ValueError
  | Blocks _ => e = TypeError
  end.
Proof.
  destruct content as [text | rendering]; simpl; [| congruence].
  destruct (is_ascii text); [apply py_int_ascii_raises |].
  destruct (int_of_unicode env text); congruence.
Qed.

(** On ASCII text the environment has no say. *)
Lemma py_int_on_ascii (env : Env) (text : string) :
  is_ascii text = true -> py_int env (Text text) = py_int_ascii text.
Proof. intros Hascii. simpl. by rewrite Hascii. Qed.

(** The reading of the classifier output the specification has in mind:
    an integer among 1, 2 and 3. *)
Definition parses_in_range (env : Env) (content : Content) : Prop :=
  exists n : Z, py_int env content = OK n /\ 1 <= n <= 3.

Lemma router_cases (env : Env) (config : Configuration) (s : State) (r : AIMessage) :
  ainvoke env (model config) [] (router_input env s) = OK r ->
  router env s config =
  match py_int env (ai_content r) with
  | OK n => OK {[ "router_stage" := VInt n ]}
  | Raise e => Raise e
  end.
Proof.
  intros Hr. unfold router. rewrite Hr; simpl.
  by destruct (py_int env (ai_content r)).
Qed.

(** C4, as stated, fails: the answer 7 is not an integer among 1, 2 and 3,
    yet the stage router succeeds on it. *)
Lemma router_accepts_out_of_range :
  ~ (forall (env : Env) (config : Configuration) (s : State) (r : AIMessage),
       ainvoke env (model config) [] (router_input env s) = OK r ->
       (succeeds (router env s config) = false <->
          ~ parses_in_range env (ai_content r))).
Proof.
  intros Hclaim.
  destruct (Hclaim (scripted_env "7" "1" "-1" plain_answer) demo_config
                   (initial_state opening) (mkAIMessage "7" [] (Some "run-1"))
                   eq_refl) as [_ Hfails].
  assert (Hout : ~ parses_in_range (scripted_env "7" "1" "-1" plain_answer)
                     (ai_content (mkAIMessage "7" [] (Some "run-1")))).
  { intros [n [Hn Hrange]]. vm_compute in Hn. injection Hn as <-. lia. }
  specialize (Hfails Hout). vm_compute in Hfails. discriminate.
Qed.

(** C4 (amended): the stage router fails exactly when [int] fails on the
    classifier's answer, with the same exception: [ValueError] on text
    that is not an integer literal, [TypeError] on content that is not
    text; the failure aborts the run. There is no range check: whenever
    [int] reads the answer as an integer, in range or not, the router
    succeeds and writes exactly that integer to [router_stage]. On ASCII
    text the integer literals are those of [py_int_ascii]. *)
Theorem router_fails_iff_not_an_integer
    (env : Env) (config : Configuration) (s : State) (r : AIMessage) :
  ainvoke env (model config) [] (router_input env s) = OK r ->
  (forall e : Exception,
     router env s config = Raise e <-> py_int env (ai_content r) = Raise e) /\
  (forall e : Exception,
     router env s config = Raise e ->
     match ai_content r with
     | Text _ => e = ValueError
     | Blocks _ => e = TypeError
     end) /\
  (forall e : Exception,
     py_int env (ai_content r) = Raise e ->
     forall (budget : nat) (visited : list string),
       run env config (S budget) "router" s visited = Raise e) /\
  (forall n : Z,
     py_int env (ai_content r) = OK n ->
     router env s config = OK {[ "router_stage" := VInt n ]} /\
     router_stage (apply_update s {[ "router_stage" := VInt n ]}) = n) /\
  (forall text : string,
     ai_content r = Text text -> is_ascii text = true ->
     py_int env (ai_content r) = py_int_ascii text).
Proof.
  intros Hr.
  assert (Habort : forall e : Exception,
             py_int env (ai_content r) = Raise e ->
             forall (budget : nat) (visited : list string),
               run env config (S budget) "router" s visited = Raise e).
  { intros e Hbad budget visited.
    cbn [run]. change (String.eqb "router" "__end__") with false. cbv iota.
    unfold step. change (assoc "router" (nodes env)) with (Some (router env)).
    cbv iota. unfold router.
    change (router_input env (set_is_last_step s (budget =? 0)%nat))
      with (router_input env s).
    rewrite Hr; simpl. rewrite Hbad. reflexivity. }
  assert (Hascii : forall text : string,
             ai_content r = Text text -> is_ascii text = true ->
             py_int env (ai_content r) = py_int_ascii text).
  { intros text -> Htext. by apply py_int_on_ascii. }
  pose proof (py_int_raises env (ai_content r)) as Hclass.
  revert Habort Hascii Hclass. rewrite (router_cases env config s r Hr).
  destruct (py_int env (ai_content r)) as [n | e0]; intros Habort Hascii Hclass.
  - repeat split; intros; try discriminate; try congruence; auto.
  - repeat split; intros; try discriminate; auto;
      try (by apply Hclass); try congruence.
    match goal with H : Raise _ = Raise _ |- _ => injection H as <- end.
    by apply Hclass.
Qed.

Lemma router_fails_iff_not_an_integer_witness :
  let env := scripted_env "7" "1" "-1" plain_answer in
  let s := initial_state opening in
  ainvoke env (model demo_config) [] (router_input env s) =
    OK (mkAIMessage "7" [] (Some "run-1")) /\
  router env s demo_config = OK {[ "router_stage" := VInt 7 ]} /\
  router_stage (apply_update s {[ "router_stage" := VInt 7 ]}) = 7.
Proof.
  split; [reflexivity |].
  destruct (router_fails_iff_not_an_integer
              (scripted_env "7" "1" "-1" plain_answer) demo_config
              (initial_state opening) (mkAIMessage "7" [] (Some "run-1"))
              eq_refl) as [_ [_ [_ [Hok _]]]].
  apply (Hok 7 eq_refl).
Defined.

(** * Further properties of the graph *)

(** ** What each node returns *)

(** The update a node can return: one key, fixed by the node. *)
Inductive node_returns (env : Env) (config : Configuration) (s : State)
  : string -> Update -> Prop :=
| returns_router (n : Z) :
    node_returns env config s "router" {[ "router_stage" := VInt n ]}
| returns_call_model (m : AIMessage) :
    node_returns env config s "call_model" {[ "messages" := VMessages [AI m] ]}
| returns_tools (results : list AnyMessage) :
    node_returns env config s "tools" {[ "messages" := VMessages results ]}
| returns_get_appointments :
    node_returns env config s "get_appointments_node"
      {[ "appointments" := VAppointments (get_appointments config) ]}
| returns_suggest :
    node_returns env config s "suggest_reschedule_node"
      {[ "messages" := VMessages [suggestion_message] ]}
| returns_decision (n : Z) :
    node_returns env config s "determine_reschedule_or_cancel"
      {[ "reschedule_or_cancel_decision" := VInt n ]}
| returns_appointment_id (n : Z) :
    node_returns env config s "determine_appointment_to_cancel"
      {[ "appointment_id" := VInt n ]}
| returns_confirmation :
    node_returns env config s "confirmation_message_node"
      {[ "messages" := VMessages [confirmation_message] ]}
| returns_escalation :
    node_returns env config s "reschedule_message_node"
      {[ "messages" := VMessages [escalation_message] ]}.

Ltac case_name name :=
  repeat match goal with
         | |- context [String.eqb ?k name] =>
             destruct (String.eqb_spec k name); [subst name |]
         end.

Lemma classifier_cases (env : Env) (call : Result AIMessage) (key : string)
    (u : Update) :
  (let! response := call in
   let! n := py_int env (ai_content response) in
   OK {[ key := VInt n ]}) = OK u ->
  exists (r : AIMessage) (n : Z),
    call = OK r /\ py_int env (ai_content r) = OK n /\ u = {[ key := VInt n ]}.
Proof.
  destruct call as [r | e]; simpl; [| discriminate].
  destruct (py_int env (ai_content r)) as [n | e] eqn:Hint; simpl; [| discriminate].
  intros [= <-]. exists r, n. repeat split; assumption.
Qed.

Lemma node_returns_shape (env : Env) (config : Configuration) (name : string)
    (fn : NodeFn) (s : State) (u : Update) :
  assoc name (nodes env) = Some fn ->
  fn s config = OK u ->
  node_returns env config s name u.
Proof.
  unfold nodes; cbn [assoc]. case_name name; try discriminate; intros [= <-] Hu.
  - apply classifier_cases in Hu as (r & answer & _ & _ & ->). constructor.
  - unfold call_model in Hu.
    destruct (ainvoke env (model config) TOOLS (call_model_input env s config));
      [| discriminate].
    simpl in Hu. destruct (is_last_step s && truthy (tool_calls a));
      injection Hu as <-; constructor.
  - unfold tools_node in Hu.
    destruct (last_message (messages s)) as [m |]; [| discriminate].
    simpl in Hu. destruct m; try discriminate.
    injection Hu as <-. constructor.
  - injection Hu as <-. constructor.
  - injection Hu as <-. constructor.
  - apply classifier_cases in Hu as (r & answer & _ & _ & ->). constructor.
  - apply classifier_cases in Hu as (r & answer & _ & _ & ->). constructor.
  - injection Hu as <-. constructor.
  - injection Hu as <-. constructor.
Qed.

(** The fields a node leaves alone. *)
Lemma node_frame (env : Env) (config : Configuration) (name : string)
    (fn : NodeFn) (s : State) (u : Update) :
  assoc name (nodes env) = Some fn ->
  fn s config = OK u ->
  (name <> "router" -> router_stage (apply_update s u) = router_stage s) /\
  (name <> "determine_reschedule_or_cancel" ->
     reschedule_or_cancel_decision (apply_update s u) =
     reschedule_or_cancel_decision s) /\
  (name <> "get_appointments_node" ->
     appointments (apply_update s u) = appointments s) /\
  (name <> "determine_appointment_to_cancel" ->
     appointment_id (apply_update s u) = appointment_id s) /\
  (In name ["router"; "determine_reschedule_or_cancel"; "get_appointments_node";
            "determine_appointment_to_cancel"] ->
     messages (apply_update s u) = messages s) /\
  is_last_step (apply_update s u) = is_last_step s.
Proof.
  intros Hfn Hu.
  destruct (node_returns_shape env config name fn s u Hfn Hu);
    rewrite ?apply_update_messages, ?apply_update_router_stage,
      ?apply_update_decision, ?apply_update_appointments,
      ?apply_update_appointment_id; cbn [router_stage reschedule_or_cancel_decision
      appointments appointment_id messages is_last_step];
    repeat split; intros; try reflexivity; try congruence;
    repeat match goal with
           | H : In _ _ |- _ => destruct H as [H | H]; try discriminate H
           end; try contradiction.
Qed.

(** X: every node writes its own state field and no other: the stage is
    written by the router only, the decision by the reschedule-or-cancel
    classifier only, the appointments by the fetch node only, the
    appointment id by the appointment-selection classifier only; the four
    of them leave the history alone, and no node touches the scheduler's
    flag. *)
Theorem node_writes_own_field (env : Env) (config : Configuration) (name : string)
    (fn : NodeFn) (s : State) (u : Update) :
  assoc name (nodes env) = Some fn ->
  fn s config = OK u ->
  (name <> "router" -> router_stage (apply_update s u) = router_stage s) /\
  (name <> "determine_reschedule_or_cancel" ->
     reschedule_or_cancel_decision (apply_update s u) =
     reschedule_or_cancel_decision s) /\
  (name <> "get_appointments_node" ->
     appointments (apply_update s u) = appointments s) /\
  (name <> "determine_appointment_to_cancel" ->
     appointment_id (apply_update s u) = appointment_id s) /\
  (In name ["router"; "determine_reschedule_or_cancel"; "get_appointments_node";
            "determine_appointment_to_cancel"] ->
     messages (apply_update s u) = messages s) /\
  is_last_step (apply_update s u) = is_last_step s.
Proof. apply node_frame. Qed.

Lemma node_writes_own_field_witness :
  let env := scripted_env "3" "2" "2" plain_answer in
  let s := mkState opening 3 0 fixture 0 false in
  determine_reschedule_or_cancel env s demo_config =
    OK {[ "reschedule_or_cancel_decision" := VInt 2 ]} /\
  router_stage
    (apply_update s {[ "reschedule_or_cancel_decision" := VInt 2 ]}) = 3.
Proof.
  split; [reflexivity |].
  destruct (node_writes_own_field
              (scripted_env "3" "2" "2" plain_answer) demo_config
              "determine_reschedule_or_cancel"
              (determine_reschedule_or_cancel (scripted_env "3" "2" "2" plain_answer))
              (mkState opening 3 0 fixture 0 false)
              {[ "reschedule_or_cancel_decision" := VInt 2 ]}
              eq_refl eq_refl) as [Hstage _].
  apply Hstage. discriminate.
Defined.

(** ** Routing after the agent node: every outcome *)

(** X: the routing function after the agent node raises [IndexError]
    exactly on an empty history and [ValueError] exactly when the last
    message exists and is not a model response; it raises nothing else. *)
Theorem route_model_output_errors (s : State) :
  (route_model_output s = Raise IndexError <-> messages s = []) /\
  (route_model_output s = Raise ValueError <->
     exists m : AnyMessage, last (messages s) = Some m /\ is_ai m = false) /\
  (forall e : Exception,
     route_model_output s = Raise e -> e = IndexError \/ e = ValueError).
Proof.
  unfold route_model_output, last_message.
  destruct (last (messages s)) as [m |] eqn:Hlast; simpl.
  - assert (Hne : messages s <> []) by (intros Hnil; rewrite Hnil in Hlast; discriminate).
    destruct m as [c i | a | c i | c t i]; simpl;
      try (destruct (negb (truthy (tool_calls a))));
      repeat split; intros; try discriminate; try contradiction;
      try (by eexists); try (by right);
      try (match goal with H : exists _, _ |- _ =>
             destruct H as (m & [= <-] & Hai); discriminate Hai end);
      try (match goal with H : Raise _ = Raise _ |- _ =>
             injection H as <-; by right end).
  - apply last_None in Hlast.
    repeat split; intros; try discriminate; try assumption; try reflexivity.
    + match goal with H : exists _, _ |- _ => destruct H as (m & Hm & _); discriminate Hm end.
    + match goal with H : Raise _ = Raise _ |- _ => injection H as <-; by left end.
Qed.

(** X: after the agent node has run, the routing function never raises:
    it names the tool-execution node when the step budget is not
    exhausted and the response asks for a tool, and the end state in
    every other case, in particular always on the last step. *)
Theorem call_model_then_route
    (env : Env) (config : Configuration) (s : State) (r : AIMessage) :
  ainvoke env (model config) TOOLS (call_model_input env s config) = OK r ->
  exists u : Update,
    call_model env s config = OK u /\
    route_model_output (apply_update s u) =
      OK (if negb (is_last_step s) && truthy (tool_calls r)
          then "tools" else "__end__") /\
    step env config "call_model" s =
      OK (apply_update s u,
          if negb (is_last_step s) && truthy (tool_calls r)
          then "tools" else "__end__").
Proof.
  intros Hr. eexists. split; [apply (call_model_cases env config s r Hr) |].
  assert (Hroute :
    route_model_output
      (apply_update s
         {[ "messages" :=
              VMessages
                [AI (if is_last_step s && truthy (tool_calls r)
                     then mkAIMessage fallback_text [] (ai_id r) else r)] ]}) =
    OK (if negb (is_last_step s) && truthy (tool_calls r) then "tools" else "__end__")).
  { rewrite apply_update_messages.
    unfold route_model_output, last_message; cbn [messages].
    rewrite last_snoc; simpl.
    destruct (is_last_step s), (truthy (tool_calls r)) eqn:Hcalls;
      simpl; rewrite ?Hcalls; reflexivity. }
  split; [exact Hroute |].
  eapply step_node; [reflexivity | apply (call_model_cases env config s r Hr) |].
  exact Hroute.
Qed.

Lemma call_model_then_route_witness :
  let env := scripted_env "2" "1" "-1" wants_tool in
  let s := mkState opening 2 0 [] 0 false in
  ainvoke env (model demo_config) TOOLS (call_model_input env s demo_config) =
    OK wants_tool /\
  exists u : Update,
    call_model env s demo_config = OK u /\
    route_model_output (apply_update s u) = OK "tools" /\
    step env demo_config "call_model" s = OK (apply_update s u, "tools").
Proof.
  split; [reflexivity |].
  apply (call_model_then_route
           (scripted_env "2" "1" "-1" wants_tool) demo_config
           (mkState opening 2 0 [] 0 false) wants_tool eq_refl).
Defined.

(** ** Failures of the model *)

(** X: no node recovers from a failing model call: the stage router, both
    other classifiers and the agent node raise what the model call
    raised, and a run whose agent call fails ends with that exception,
    without appending any message. *)
Theorem model_failure_propagates
    (env : Env) (config : Configuration) (s : State) (e : Exception) :
  (ainvoke env (model config) [] (router_input env s) = Raise e ->
   router env s config = Raise e) /\
  (ainvoke env (model config) []
     (RoleContent "system" (DETERMINE_RESCHEDULE_OR_CANCEL_PROMPT (prompts env))
        :: history s) = Raise e ->
   determine_reschedule_or_cancel env s config = Raise e) /\
  (ainvoke env (model config) [] (determine_appointment_input env s) = Raise e ->
   determine_appointment_to_cancel env s config = Raise e) /\
  (ainvoke env (model config) TOOLS (call_model_input env s config) = Raise e ->
   call_model env s config = Raise e /\
   forall (budget : nat) (visited : list string),
     run env config (S budget) "call_model" s visited = Raise e).
Proof.
  repeat split.
  - intros H. unfold router. by rewrite H.
  - intros H. unfold determine_reschedule_or_cancel. by rewrite H.
  - intros H. unfold determine_appointment_to_cancel. by rewrite H.
  - unfold call_model. by rewrite H.
  - intros budget visited.
    cbn [run]. change (String.eqb "call_model" "__end__") with false. cbv iota.
    unfold step. change (assoc "call_model" (nodes env)) with (Some (call_model env)).
    cbv iota. unfold call_model.
    change (call_model_input env (set_is_last_step s (budget =? 0)%nat) config)
      with (call_model_input env s config).
    by rewrite H.
Qed.

Definition failing_env : Env :=
  mkEnv (fun _ _ _ => Raise (CollaboratorError "backend unavailable"))
        "2025-01-01T00:00:00+00:00"
        (fun template _ => template)
        (fun _ => "[]")
        (fun tc => "result of " ++ tc_name tc)
        demo_prompts
        (fun _ => None).

Lemma model_failure_propagates_witness :
  let s := mkState opening 2 0 [] 0 false in
  ainvoke failing_env (model demo_config) TOOLS
    (call_model_input failing_env s demo_config) =
    Raise (CollaboratorError "backend unavailable") /\
  run failing_env demo_config 25 "call_model" s ["router"] =
    Raise (CollaboratorError "backend unavailable").
Proof.
  split; [reflexivity |].
  destruct (model_failure_propagates failing_env demo_config
              (mkState opening 2 0 [] 0 false)
              (CollaboratorError "backend unavailable")) as [_ [_ [_ Hagent]]].
  destruct (Hagent eq_refl) as [_ Hrun].
  apply (Hrun 24%nat ["router"]).
Defined.

(** ** The reschedule-or-cancel classifier and its edge *)

(** The input [determine_reschedule_or_cancel] sends to the model. *)
Definition determine_reschedule_or_cancel_input (env : Env) (s : State)
  : list ChatInput :=
  RoleContent "system" (DETERMINE_RESCHEDULE_OR_CANCEL_PROMPT (prompts env))
    :: history s.

(** One step of the reschedule-or-cancel classifier, by cases on the answer. *)
Lemma decision_step_eq
    (env : Env) (config : Configuration) (s : State) (r : AIMessage) :
  ainvoke env (model config) [] (determine_reschedule_or_cancel_input env s) = OK r ->
  step env config "determine_reschedule_or_cancel" s =
  match py_int env (ai_content r) with
  | OK n =>
      OK (mkState (messages s) (router_stage s) n (appointments s)
                  (appointment_id s) (is_last_step s),
          if (n =? 2)%Z then "determine_appointment_to_cancel"
          else "reschedule_message_node")
  | Raise e => Raise e
  end.
Proof.
  intros Hr.
  destruct (py_int env (ai_content r)) as [n | e] eqn:Hint.
  - rewrite <- (apply_update_decision s n).
    eapply step_node; [reflexivity | |].
    + unfold determine_reschedule_or_cancel.
      change (RoleContent "system" (DETERMINE_RESCHEDULE_OR_CANCEL_PROMPT (prompts env))
                :: history s)
        with (determine_reschedule_or_cancel_input env s).
      rewrite Hr; simpl. rewrite Hint. reflexivity.
    + rewrite apply_update_decision. reflexivity.
  - unfold step. change (assoc "determine_reschedule_or_cancel" (nodes env))
      with (Some (determine_reschedule_or_cancel env)).
    cbv iota. unfold determine_reschedule_or_cancel.
    change (RoleContent "system" (DETERMINE_RESCHEDULE_OR_CANCEL_PROMPT (prompts env))
              :: history s)
      with (determine_reschedule_or_cancel_input env s).
    rewrite Hr; simpl. rewrite Hint. reflexivity.
Qed.

(** X: one step of the reschedule-or-cancel classifier: when [int] reads
    the answer as an integer the decision is stored, nothing else changes,
    and the next node is the appointment-selection classifier when the
    integer is 2 and the escalation node for any other integer; when
    [int] fails on the answer the step raises what [int] raised. *)
Theorem decision_step
    (env : Env) (config : Configuration) (s : State) (r : AIMessage) :
  ainvoke env (model config) [] (determine_reschedule_or_cancel_input env s) = OK r ->
  step env config "determine_reschedule_or_cancel" s =
  match py_int env (ai_content r) with
  | OK n =>
      OK (mkState (messages s) (router_stage s) n (appointments s)
                  (appointment_id s) (is_last_step s),
          if (n =? 2)%Z then "determine_appointment_to_cancel"
          else "reschedule_message_node")
  | Raise e => Raise e
  end.
Proof. apply decision_step_eq. Qed.

Lemma decision_step_witness :
  let env := scripted_env "3" " 2 " "1" plain_answer in
  let s := mkState opening 3 0 [] 0 false in
  ainvoke env (model demo_config) [] (determine_reschedule_or_cancel_input env s) =
    OK (mkAIMessage " 2 " [] (Some "run-2")) /\
  step env demo_config "determine_reschedule_or_cancel" s =
    OK (mkState opening 3 2 [] 0 false, "determine_appointment_to_cancel").
Proof.
  split; [reflexivity |].
  apply (decision_step (scripted_env "3" " 2 " "1" plain_answer) demo_config
           (mkState opening 3 0 [] 0 false)
           (mkAIMessage " 2 " [] (Some "run-2")) eq_refl).
Defined.

(** ** The cancellation branch *)

(** X: from the appointment-selection classifier the confirmation is
    unconditional: for every answer [int] reads as an integer, whether or
    not it is the id of a stored appointment, the run stores it, appends
    the confirmation message and ends, leaving the stored appointments as
    they were; an answer on which [int] fails aborts the run with what
    [int] raised, before any message is appended. *)
Theorem confirmation_is_unconditional
    (env : Env) (config : Configuration) (s : State) (r : AIMessage)
    (budget : nat) (visited : list string) :
  ainvoke env (model config) [] (determine_appointment_input env s) = OK r ->
  match py_int env (ai_content r) with
  | OK n =>
      exists s' : State,
        run env config (S (S budget)) "determine_appointment_to_cancel" s visited =
          OK (s', (visited ++ ["determine_appointment_to_cancel";
                               "confirmation_message_node"])%list) /\
        appointment_id s' = n /\
        appointments s' = appointments s /\
        messages s' = (messages s ++ [confirmation_message])%list
  | Raise e =>
      run env config (S (S budget)) "determine_appointment_to_cancel" s visited =
        Raise e
  end.
Proof.
  intros Hr.
  destruct (py_int env (ai_content r)) as [n | e] eqn:Hint.
  - eexists.
    replace (visited ++ ["determine_appointment_to_cancel"; "confirmation_message_node"])%list
      with ((visited ++ ["determine_appointment_to_cancel"]) ++
            ["confirmation_message_node"])%list
      by (rewrite <- app_assoc; reflexivity).
    split.
    + erewrite run_step; [| discriminate |].
      * erewrite run_step; [apply run_end | discriminate |].
        unfold step; simpl. rewrite apply_update_messages. reflexivity.
      * eapply step_node; [reflexivity | | reflexivity].
        unfold determine_appointment_to_cancel.
        change (determine_appointment_input env (set_is_last_step s (S budget =? 0)%nat))
          with (determine_appointment_input env s).
        rewrite Hr; simpl. rewrite Hint; simpl. reflexivity.
    + rewrite apply_update_appointment_id. repeat split; reflexivity.
  - cbn [run]. change (String.eqb "determine_appointment_to_cancel" "__end__") with false.
    cbv iota. unfold step.
    change (assoc "determine_appointment_to_cancel" (nodes env))
      with (Some (determine_appointment_to_cancel env)).
    cbv iota. unfold determine_appointment_to_cancel.
    change (determine_appointment_input env (set_is_last_step s (S budget =? 0)%nat))
      with (determine_appointment_input env s).
    rewrite Hr; simpl. rewrite Hint. reflexivity.
Qed.

Lemma confirmation_is_unconditional_witness :
  let env := scripted_env "3" "2" "99" plain_answer in
  let s := mkState opening 3 2 fixture 0 false in
  ainvoke env (model demo_config) [] (determine_appointment_input env s) =
    OK (mkAIMessage "99" [] (Some "run-3")) /\
  exists s' : State,
    run env demo_config 2 "determine_appointment_to_cancel" s [] =
      OK (s', ["determine_appointment_to_cancel"; "confirmation_message_node"]) /\
    appointment_id s' = 99 /\
    appointments s' = fixture /\
    messages s' = (opening ++ [confirmation_message])%list.
Proof.
  split; [reflexivity |].
  apply (confirmation_is_unconditional
           (scripted_env "3" "2" "99" plain_answer) demo_config
           (mkState opening 3 2 fixture 0 false)
           (mkAIMessage "99" [] (Some "run-3")) 0%nat [] eq_refl).
Defined.

(** ** Whole runs *)

Lemma invoke_enters_router (env : Env) (config : Configuration) (budget : nat)
    (seed : list AnyMessage) :
  invoke env config budget seed =
  run env config budget "router" (initial_state seed) [].
Proof. reflexivity. Qed.

Lemma router_step (env : Env) (config : Configuration) (s : State)
    (r : AIMessage) (n : Z) :
  ainvoke env (model config) [] (router_input env s) = OK r ->
  py_int env (ai_content r) = OK n ->
  step env config "router" s =
  OK (mkState (messages s) n (reschedule_or_cancel_decision s) (appointments s)
              (appointment_id s) (is_last_step s),
      if (n =? 1)%Z then "get_appointments_node"
      else if (n =? 2)%Z then "call_model"
      else "determine_reschedule_or_cancel").
Proof.
  intros Hr Hint. rewrite <- (apply_update_router_stage s n).
  eapply step_node; [reflexivity | |].
  - rewrite (router_cases env config s r Hr), Hint. reflexivity.
  - rewrite apply_update_router_stage.
    match goal with
    | |- next_node "router" ?st = _ =>
        change (next_node "router" st) with (OK (snd (route_from_router st)))
    end.
    unfold route_from_router; cbn [router_stage].
    by destruct (n =? 1)%Z, (n =? 2)%Z.
Qed.

(** X: a run whose stage classifier answers 1 is the same whatever the
    conversation says: it visits the router, the fetch node and the
    suggestion node, in that order, ends with the two fixture appointments
    stored and the reschedule suggestion appended to the seed messages,
    and calls the model exactly once, for the stage. *)
Theorem fresh_cancellation_run
    (env : Env) (config : Configuration) (seed : list AnyMessage)
    (r : AIMessage) (budget : nat) :
  ainvoke env (model config) [] (router_input env (initial_state seed)) = OK r ->
  py_int env (ai_content r) = OK 1 ->
  invoke env config (S (S (S budget))) seed =
  OK (mkState (seed ++ [suggestion_message]) 1 0 (get_appointments config) 0
              (budget =? 0)%nat,
      ["router"; "get_appointments_node"; "suggest_reschedule_node"]).
Proof.
  intros Hr Hint. rewrite invoke_enters_router.
  erewrite run_step; [| discriminate | apply (router_step env config _ r 1 Hr Hint)].
  erewrite run_step; [| discriminate |].
  2: { eapply step_node; [reflexivity | reflexivity | reflexivity]. }
  erewrite run_step; [| discriminate |].
  2: { eapply step_node; [reflexivity | reflexivity | reflexivity]. }
  rewrite run_end. rewrite apply_update_messages, apply_update_appointments.
  reflexivity.
Qed.

Lemma fresh_cancellation_run_witness :
  let env := scripted_env " 1" "2" "2" wants_tool in
  ainvoke env (model demo_config) [] (router_input env (initial_state opening)) =
    OK (mkAIMessage " 1" [] (Some "run-1")) /\
  py_int_ascii " 1" = OK 1 /\
  invoke env demo_config 3 opening =
  OK (mkState (opening ++ [suggestion_message]) 1 0 fixture 0 true,
      ["router"; "get_appointments_node"; "suggest_reschedule_node"]).
Proof.
  split; [reflexivity | split; [reflexivity |]].
  apply (fresh_cancellation_run (scripted_env " 1" "2" "2" wants_tool) demo_config
           opening (mkAIMessage " 1" [] (Some "run-1")) 0%nat eq_refl eq_refl).
Defined.

(** X: on the cancellation branch of a run the appointments are never
    fetched: when the stage answer is neither 1 nor 2 and the decision is
    2, the appointment-selection classifier is asked about the empty
    appointment list the run started with, and the run still ends with the
    confirmation appended and that list still empty. *)
Theorem cancellation_run_never_fetches
    (env : Env) (config : Configuration) (seed : list AnyMessage)
    (r1 r2 r3 : AIMessage) (stage chosen : Z) (budget : nat) :
  ainvoke env (model config) [] (router_input env (initial_state seed)) = OK r1 ->
  py_int env (ai_content r1) = OK stage ->
  stage <> 1 -> stage <> 2 ->
  ainvoke env (model config) []
    (determine_reschedule_or_cancel_input env (mkState seed stage 0 [] 0 false)) = OK r2 ->
  py_int env (ai_content r2) = OK 2 ->
  ainvoke env (model config) []
    (determine_appointment_input env (mkState seed stage 2 [] 0 false)) = OK r3 ->
  py_int env (ai_content r3) = OK chosen ->
  invoke env config (S (S (S (S budget)))) seed =
  OK (mkState (seed ++ [confirmation_message]) stage 2 [] chosen (budget =? 0)%nat,
      ["router"; "determine_reschedule_or_cancel";
       "determine_appointment_to_cancel"; "confirmation_message_node"]).
Proof.
  intros Hr1 Hint1 Hne1 Hne2 Hr2 Hint2 Hr3 Hint3.
  rewrite invoke_enters_router.
  erewrite run_step; [| discriminate | apply (router_step env config _ r1 stage Hr1 Hint1)].
  apply Z.eqb_neq in Hne1, Hne2. rewrite Hne1, Hne2.
  erewrite run_step; [| discriminate |].
  2: { rewrite (decision_step_eq env config _ r2), Hint2; [reflexivity | exact Hr2]. }
  erewrite run_step; [| discriminate |].
  2: { eapply step_node; [reflexivity | | reflexivity].
       unfold determine_appointment_to_cancel.
       match goal with
       | |- context [determine_appointment_input env ?st] =>
           change (determine_appointment_input env st)
             with (determine_appointment_input env (mkState seed stage 2 [] 0 false))
       end.
       rewrite Hr3; simpl. rewrite Hint3. reflexivity. }
  erewrite run_step; [| discriminate |].
  2: { eapply step_node; [reflexivity | reflexivity | reflexivity]. }
  rewrite run_end. rewrite apply_update_messages, apply_update_appointment_id.
  reflexivity.
Qed.

Lemma cancellation_run_never_fetches_witness :
  let env := scripted_env "3" "2" "2" plain_answer in
  invoke env demo_config 4 opening =
  OK (mkState (opening ++ [confirmation_message]) 3 2 [] 2 true,
      ["router"; "determine_reschedule_or_cancel";
       "determine_appointment_to_cancel"; "confirmation_message_node"]).
Proof.
  apply (cancellation_run_never_fetches
           (scripted_env "3" "2" "2" plain_answer) demo_config opening
           (mkAIMessage "3" [] (Some "run-1"))
           (mkAIMessage "2" [] (Some "run-2"))
           (mkAIMessage "2" [] (Some "run-3"))
           3 2 0%nat
           eq_refl eq_refl ltac:(discriminate) ltac:(discriminate)
           eq_refl eq_refl eq_refl eq_refl).
Defined.

(** ** The shape of a run *)

(** The transitions the edge table and the three routing functions allow. *)
Definition adjacency : list (string * list string) :=
  [ ("__start__", ["router"]);
    ("router", ["get_appointments_node"; "call_model";
                "determine_reschedule_or_cancel"]);
    ("get_appointments_node", ["suggest_reschedule_node"]);
    ("suggest_reschedule_node", ["__end__"]);
    ("call_model", ["__end__"; "tools"]);
    ("tools", ["call_model"]);
    ("determine_reschedule_or_cancel",
      ["determine_appointment_to_cancel"; "reschedule_message_node"]);
    ("determine_appointment_to_cancel", ["confirmation_message_node"]);
    ("confirmation_message_node", ["__end__"]);
    ("reschedule_message_node", ["__end__"]) ].

Definition successors (name : string) : list string :=
  match assoc name adjacency with
  | Some targets => targets
  | None => []
  end.

Lemma next_node_successor (name target : string) (s : State) :
  next_node name s = OK target -> In target (successors name).
Proof.
  unfold next_node, successors, conditional_edges, edges, adjacency; cbn [assoc].
  case_name name; try discriminate.
  all: match goal with
       | |- _ -> In _ ?l => let l' := eval vm_compute in l in change l with l'
       end.
  all: try (intros [= <-]).
  - unfold route_from_router.
    destruct (router_stage s =? 1)%Z; [| destruct (router_stage s =? 2)%Z];
      simpl; tauto.
  - unfold route_model_output. destruct (last_message (messages s)) as [m | e];
      simpl; [| discriminate].
    destruct m; try discriminate.
    destruct (negb (truthy (tool_calls m))); intros [= <-]; simpl; tauto.
  - unfold route_after_reschedule_or_cancel.
    destruct (reschedule_or_cancel_decision s =? 2)%Z; simpl; tauto.
  - simpl; tauto.
  - simpl; tauto.
  - simpl; tauto.
  - simpl; tauto.
  - simpl; tauto.
  - simpl; tauto.
  - simpl; tauto.
Qed.

(** X: every transition a step takes is one of the graph's declared
    transitions, leads to the end state or to a registered node, and never
    leads back to the entry point or to the stage router. *)
Theorem step_follows_adjacency
    (env : Env) (config : Configuration) (name target : string) (s s' : State) :
  step env config name s = OK (s', target) ->
  In target (successors name) /\
  (target = "__end__" \/ exists fn : NodeFn, assoc target (nodes env) = Some fn) /\
  target <> "__start__" /\ target <> "router".
Proof.
  unfold step.
  destruct (assoc name (nodes env)) as [fn |] eqn:Hfn; [| discriminate].
  destruct (fn s config) as [u | e]; simpl; [| discriminate].
  destruct (next_node name (apply_update s u)) as [t | e] eqn:Hnext; simpl;
    [| discriminate].
  intros [= _ <-].
  apply next_node_successor in Hnext.
  split; [exact Hnext |].
  revert Hfn Hnext. unfold nodes, successors, adjacency; cbn [assoc].
  case_name name; try discriminate; intros _.
  all: match goal with
       | |- In _ ?l -> _ => let l' := eval vm_compute in l in change l with l'
       end.
  all: simpl; intros Hin;
    repeat match goal with
           | H : _ \/ _ |- _ => destruct H as [H | H]
           end; try contradiction; subst t;
    (split; [first [left; reflexivity | right; eexists; reflexivity] |
             split; discriminate]).
Qed.

Lemma step_follows_adjacency_witness :
  let env := scripted_env "2" "1" "-1" wants_tool in
  let s := mkState (opening ++ [AI wants_tool]) 2 0 [] 0 false in
  exists s' : State,
    step env demo_config "tools" s = OK (s', "call_model") /\
    In "call_model" (successors "tools").
Proof.
  eexists. split; [reflexivity |].
  apply (step_follows_adjacency
           (scripted_env "2" "1" "-1" wants_tool) demo_config "tools" "call_model"
           (mkState (opening ++ [AI wants_tool]) 2 0 [] 0 false) _ eq_refl).
Defined.

(** ** Unfolding a run *)

Lemma run_unfold (env : Env) (config : Configuration) (budget : nat)
    (name : string) (s : State) (visited : list string) :
  name <> "__end__" ->
  run env config (S budget) name s visited =
  (let! after := step env config name (set_is_last_step s (budget =? 0)%nat) in
   run env config budget (snd after) (fst after) (visited ++ [name])).
Proof.
  intros Hname. cbn [run]. apply String.eqb_neq in Hname. by rewrite Hname.
Qed.

Lemma run_exhausted (env : Env) (config : Configuration)
    (name : string) (s : State) (visited : list string) :
  name <> "__end__" ->
  run env config 0 name s visited = Raise GraphRecursionError.
Proof.
  intros Hname. cbn [run]. apply String.eqb_neq in Hname. by rewrite Hname.
Qed.

Lemma run_inv (env : Env) (config : Configuration) (budget : nat)
    (name : string) (s s' : State) (visited visited' : list string) :
  name <> "__end__" ->
  run env config budget name s visited = OK (s', visited') ->
  exists (b : nat) (s1 : State) (target : string),
    budget = S b /\
    step env config name (set_is_last_step s (b =? 0)%nat) = OK (s1, target) /\
    run env config b target s1 (visited ++ [name]) = OK (s', visited').
Proof.
  intros Hname. destruct budget as [| b].
  - rewrite run_exhausted by exact Hname. discriminate.
  - rewrite run_unfold by exact Hname.
    destruct (step env config name (set_is_last_step s (b =? 0)%nat))
      as [[s1 target] | e] eqn:Hstep; simpl; [| discriminate].
    intros Hrun. exists b, s1, target.
    split; [reflexivity | split; [exact Hstep | exact Hrun]].
Qed.

Lemma step_inv (env : Env) (config : Configuration) (name target : string)
    (s s1 : State) :
  step env config name s = OK (s1, target) ->
  exists (fn : NodeFn) (u : Update),
    assoc name (nodes env) = Some fn /\
    fn s config = OK u /\
    s1 = apply_update s u /\
    next_node name s1 = OK target.
Proof.
  unfold step.
  destruct (assoc name (nodes env)) as [fn |]; [| discriminate].
  destruct (fn s config) as [u | e] eqn:Hu; simpl; [| discriminate].
  destruct (next_node name (apply_update s u)) as [t | e] eqn:Hnext; simpl;
    [| discriminate].
  intros [= <- <-]. exists fn, u. repeat split; assumption || reflexivity.
Qed.

Lemma step_get_appointments (env : Env) (config : Configuration) (s : State) :
  step env config "get_appointments_node" s =
  OK (mkState (messages s) (router_stage s) (reschedule_or_cancel_decision s)
              (get_appointments config) (appointment_id s) (is_last_step s),
      "suggest_reschedule_node").
Proof.
  rewrite <- apply_update_appointments.
  eapply step_node; reflexivity.
Qed.

Lemma step_message_node (env : Env) (config : Configuration) (name : string)
    (m : AnyMessage) (s : State) :
  In (name, m) [ ("suggest_reschedule_node", suggestion_message);
                 ("confirmation_message_node", confirmation_message);
                 ("reschedule_message_node", escalation_message) ] ->
  step env config name s = OK (appended s m, "__end__").
Proof.
  unfold appended. rewrite <- apply_update_messages.
  intros [[= <- <-] | [[= <- <-] | [[= <- <-] | []]]];
    eapply step_node; reflexivity.
Qed.

Lemma step_classifier (env : Env) (config : Configuration) (name key : string)
    (input : State -> list ChatInput) (s s1 : State) (target : string) :
  assoc name (nodes env) =
    Some (fun st cfg =>
            let! response := ainvoke env (model cfg) [] (input st) in
            let! n := py_int env (ai_content response) in
            OK {[ key := VInt n ]}) ->
  step env config name s = OK (s1, target) ->
  exists (r : AIMessage) (n : Z),
    ainvoke env (model config) [] (input s) = OK r /\
    py_int env (ai_content r) = OK n /\
    s1 = apply_update s {[ key := VInt n ]} /\
    next_node name s1 = OK target.
Proof.
  intros Hnode Hstep.
  apply step_inv in Hstep as (fn & u & Hfn & Hu & Hs1 & Hnext).
  rewrite Hnode in Hfn. injection Hfn as <-.
  apply classifier_cases in Hu as (r & n & Hr & Hint & ->).
  exists r, n. split; [exact Hr | split; [exact Hint | split; assumption]].
Qed.

(** ** The agent loop as a trace *)

Fixpoint agent_loop (rounds : nat) : list string :=
  match rounds with
  | O => ["call_model"]
  | S rounds' => "call_model" :: "tools" :: agent_loop rounds'
  end.

Definition same_selection (s s' : State) : Prop :=
  router_stage s' = router_stage s /\
  reschedule_or_cancel_decision s' = reschedule_or_cancel_decision s /\
  appointments s' = appointments s /\
  appointment_id s' = appointment_id s.

Lemma same_selection_step (env : Env) (config : Configuration) (name target : string)
    (b : bool) (s s1 : State) :
  In name ["call_model"; "tools"] ->
  step env config name (set_is_last_step s b) = OK (s1, target) ->
  same_selection s s1.
Proof.
  intros Hname Hstep.
  apply step_inv in Hstep as (fn & u & Hfn & Hu & -> & _).
  destruct (node_frame env config name fn _ u Hfn Hu)
    as (Hstage & Hdecision & Happts & Hid & _).
  assert (Hneq : name <> "router" /\ name <> "determine_reschedule_or_cancel" /\
                 name <> "get_appointments_node" /\
                 name <> "determine_appointment_to_cancel").
  { destruct Hname as [<- | [<- | []]]; repeat split; discriminate. }
  destruct Hneq as (N1 & N2 & N3 & N4).
  unfold same_selection.
  rewrite (Hstage N1), (Hdecision N2), (Happts N3), (Hid N4). by repeat split.
Qed.

Lemma same_selection_trans (s1 s2 s3 : State) :
  same_selection s1 s2 -> same_selection s2 s3 -> same_selection s1 s3.
Proof.
  unfold same_selection. intros (A1 & A2 & A3 & A4) (B1 & B2 & B3 & B4).
  repeat split; congruence.
Qed.

Lemma agent_run (env : Env) (config : Configuration) (budget : nat) :
  forall (s s' : State) (visited visited' : list string),
    (run env config budget "call_model" s visited = OK (s', visited') ->
     exists rounds : nat,
       visited' = (visited ++ agent_loop rounds)%list /\ same_selection s s') /\
    (run env config budget "tools" s visited = OK (s', visited') ->
     exists rounds : nat,
       visited' = (visited ++ "tools" :: agent_loop rounds)%list /\
       same_selection s s').
Proof.
  induction budget as [| b IH]; intros s s' visited visited'.
  - split; intros Hrun; apply run_inv in Hrun as (b & _ & _ & [=] & _); discriminate.
  - split; intros Hrun.
    + apply run_inv in Hrun as (b' & s1 & target & [= <-] & Hstep & Hrest);
        [| discriminate].
      assert (Hsame : same_selection s s1)
        by (eapply same_selection_step; [| exact Hstep]; simpl; tauto).
      destruct (step_inv _ _ _ _ _ _ Hstep) as (_ & _ & _ & _ & _ & Hnext).
      apply next_node_successor in Hnext.
      change (successors "call_model") with ["__end__"; "tools"] in Hnext.
      destruct Hnext as [<- | [<- | []]].
      * rewrite run_end in Hrest. injection Hrest as <- <-.
        exists 0%nat. split; [reflexivity | exact Hsame].
      * apply (proj2 (IH _ _ _ _)) in Hrest as (rounds & -> & Hsame').
        exists (S rounds). split.
        -- rewrite <- app_assoc. reflexivity.
        -- eapply same_selection_trans; eassumption.
    + apply run_inv in Hrun as (b' & s1 & target & [= <-] & Hstep & Hrest);
        [| discriminate].
      assert (Hsame : same_selection s s1)
        by (eapply same_selection_step; [| exact Hstep]; simpl; tauto).
      destruct (step_inv _ _ _ _ _ _ Hstep) as (_ & _ & _ & _ & _ & Hnext).
      apply next_node_successor in Hnext.
      change (successors "tools") with ["call_model"] in Hnext.
      destruct Hnext as [<- | []].
      apply (proj1 (IH _ _ _ _)) in Hrest as (rounds & -> & Hsame').
      exists rounds. split.
      * rewrite <- app_assoc. reflexivity.
      * eapply same_selection_trans; eassumption.
Qed.

(** X: every completed run takes one of four shapes, told apart by the
    stage and decision it stored: stage 1 runs the router, the fetch node
    and the suggestion node; stage 2 runs the router and then the agent
    node, alternating with the tool node; any other stage runs the router
    and the reschedule-or-cancel classifier, followed by the escalation
    node unless the decision is 2, in which case the appointment-selection
    classifier and the confirmation node follow. The stage router runs
    once, first, and the appointments are fetched on the stage 1 branch
    only. *)
Theorem run_shapes (env : Env) (config : Configuration) (budget : nat)
    (seed : list AnyMessage) (s' : State) (visited : list string) :
  invoke env config budget seed = OK (s', visited) ->
  (router_stage s' = 1 /\
   visited = ["router"; "get_appointments_node"; "suggest_reschedule_node"] /\
   appointments s' = get_appointments config /\
   messages s' = (seed ++ [suggestion_message])%list) \/
  (router_stage s' = 2 /\
   (exists rounds : nat, visited = "router" :: agent_loop rounds) /\
   appointments s' = []) \/
  (router_stage s' <> 1 /\ router_stage s' <> 2 /\
   reschedule_or_cancel_decision s' <> 2 /\
   visited = ["router"; "determine_reschedule_or_cancel"; "reschedule_message_node"] /\
   appointments s' = [] /\
   messages s' = (seed ++ [escalation_message])%list) \/
  (router_stage s' <> 1 /\ router_stage s' <> 2 /\
   reschedule_or_cancel_decision s' = 2 /\
   visited = ["router"; "determine_reschedule_or_cancel";
              "determine_appointment_to_cancel"; "confirmation_message_node"] /\
   appointments s' = [] /\
   messages s' = (seed ++ [confirmation_message])%list).
Proof.
  rewrite invoke_enters_router. intros Hrun.
  apply run_inv in Hrun as (b1 & s1 & t1 & -> & Hstep & Hrun); [| discriminate].
  apply (step_classifier env config "router" "router_stage" (router_input env))
    in Hstep as (r1 & stage & _ & _ & -> & Hnext); [| reflexivity].
  rewrite apply_update_router_stage in Hnext, Hrun.
  change (next_node "router" ?st) with (OK (snd (route_from_router st))) in Hnext.
  unfold route_from_router in Hnext; cbn [router_stage snd] in Hnext.
  cbn [set_is_last_step initial_state messages reschedule_or_cancel_decision
       appointments appointment_id is_last_step] in Hrun.
  destruct (Z.eqb_spec stage 1) as [Heq1 | Hne1];
    [| destruct (Z.eqb_spec stage 2) as [Heq2 | Hne2]];
    cbn [snd] in Hnext; injection Hnext as <-; try subst stage.
  - (* stage 1 *)
    left.
    apply run_inv in Hrun as (b2 & s2 & t2 & -> & Hstep & Hrun); [| discriminate].
    rewrite step_get_appointments in Hstep. injection Hstep as <- <-.
    apply run_inv in Hrun as (b3 & s3 & t3 & -> & Hstep & Hrun); [| discriminate].
    rewrite (step_message_node env config _ suggestion_message) in Hstep
      by (simpl; tauto).
    injection Hstep as <- <-.
    rewrite run_end in Hrun. injection Hrun as <- <-.
    repeat split; reflexivity.
  - (* stage 2 *)
    right; left.
    apply (proj1 (agent_run env config b1 _ _ _ _)) in Hrun
      as (rounds & -> & Hstage & _ & Happts & _).
    cbn [router_stage appointments] in Hstage, Happts.
    split; [exact Hstage | split; [by exists rounds | exact Happts]].
  - (* any other stage *)
    right; right.
    apply run_inv in Hrun as (b2 & s2 & t2 & -> & Hstep & Hrun); [| discriminate].
    apply (step_classifier env config "determine_reschedule_or_cancel"
             "reschedule_or_cancel_decision"
             (determine_reschedule_or_cancel_input env))
      in Hstep as (r2 & decision & _ & _ & -> & Hnext); [| reflexivity].
    rewrite apply_update_decision in Hnext, Hrun.
    change (next_node "determine_reschedule_or_cancel" ?st)
      with (OK (route_after_reschedule_or_cancel st)) in Hnext.
    unfold route_after_reschedule_or_cancel in Hnext;
      cbn [reschedule_or_cancel_decision] in Hnext.
    cbn [set_is_last_step messages router_stage reschedule_or_cancel_decision
         appointments appointment_id is_last_step] in Hrun.
    destruct (Z.eqb_spec decision 2) as [Hcancel | Hdecision];
      injection Hnext as <-; try subst decision.
    + right.
      apply run_inv in Hrun as (b3 & s3 & t3 & -> & Hstep & Hrun); [| discriminate].
      apply (step_classifier env config "determine_appointment_to_cancel"
               "appointment_id" (determine_appointment_input env))
        in Hstep as (r3 & chosen & _ & _ & -> & Hnext); [| reflexivity].
      rewrite apply_update_appointment_id in Hnext, Hrun.
      injection Hnext as <-.
      cbn [set_is_last_step messages router_stage reschedule_or_cancel_decision
           appointments appointment_id is_last_step] in Hrun.
      apply run_inv in Hrun as (b4 & s4 & t4 & -> & Hstep & Hrun); [| discriminate].
      rewrite (step_message_node env config _ confirmation_message) in Hstep
        by (simpl; tauto).
      injection Hstep as <- <-.
      rewrite run_end in Hrun. injection Hrun as <- <-.
      repeat split; try reflexivity; assumption.
    + left.
      apply run_inv in Hrun as (b3 & s3 & t3 & -> & Hstep & Hrun); [| discriminate].
      rewrite (step_message_node env config _ escalation_message) in Hstep
        by (simpl; tauto).
      injection Hstep as <- <-.
      rewrite run_end in Hrun. injection Hrun as <- <-.
      repeat split; try reflexivity; assumption.
Qed.

Definition two_round_state : State :=
  mkState
    (opening ++
       [AI wants_tool; Tool "result of search" "call-1" None;
        AI (mkAIMessage fallback_text [] (Some "run-5"))])
    2 0 [] 0 true.

Lemma run_shapes_witness :
  let env := scripted_env "2" "1" "-1" wants_tool in
  invoke env demo_config 4 opening =
    OK (two_round_state, ["router"; "call_model"; "tools"; "call_model"]) /\
  router_stage two_round_state = 2 /\
  (exists rounds : nat,
     ["router"; "call_model"; "tools"; "call_model"] = "router" :: agent_loop rounds) /\
  appointments two_round_state = [].
Proof.
  assert (Hrun : invoke (scripted_env "2" "1" "-1" wants_tool) demo_config 4 opening =
                 OK (two_round_state, ["router"; "call_model"; "tools"; "call_model"]))
    by (vm_compute; reflexivity).
  split; [exact Hrun |].
  destruct (run_shapes (scripted_env "2" "1" "-1" wants_tool) demo_config 4 opening
              _ _ Hrun) as [H | [H | [H | H]]].
  - destruct H as (_ & Hvisited & _). discriminate Hvisited.
  - exact H.
  - destruct H as (_ & _ & _ & Hvisited & _). discriminate Hvisited.
  - destruct H as (_ & _ & _ & Hvisited & _). discriminate Hvisited.
Defined.

(** ** Classifier answers with white space around them *)

Fixpoint all_spaces (s : string) : bool :=
  match s with
  | String c t => is_space c && all_spaces t
  | EmptyString => true
  end.

Lemma space_not_digit (c : ascii) :
  is_space c = true -> is_digit c = false /\ is_underscore c = false.
Proof.
  unfold is_space, is_digit, is_underscore. generalize (code c) as n. intros n.
  rewrite orb_true_iff, andb_true_iff, !Nat.leb_le, Nat.eqb_eq.
  intros H. split.
  - apply andb_false_iff. destruct (Nat.leb_spec 48 n); [right | by left].
    apply Nat.leb_gt. lia.
  - apply Nat.eqb_neq. lia.
Qed.

Lemma skip_spaces_all (s : string) :
  all_spaces s = true -> skip_spaces s = EmptyString.
Proof.
  induction s as [| c t IH]; simpl; [done |].
  intros [Hc Ht]%andb_true_iff. rewrite Hc. by apply IH.
Qed.

Lemma skip_spaces_prefix (pre s : string) :
  all_spaces pre = true -> skip_spaces (pre ++ s) = skip_spaces s.
Proof.
  induction pre as [| c t IH]; simpl; [done |].
  intros [Hc Ht]%andb_true_iff. rewrite Hc. by apply IH.
Qed.

Lemma skip_spaces_suffix (s post : string) :
  all_spaces post = true ->
  skip_spaces (s ++ post) =
  match skip_spaces s with
  | EmptyString => EmptyString
  | String c t => String c t ++ post
  end.
Proof.
  intros Hpost. induction s as [| c t IH]; simpl.
  - by apply skip_spaces_all.
  - destruct (is_space c); [exact IH | reflexivity].
Qed.

Lemma scan_digits_suffix (post : string) :
  all_spaces post = true ->
  forall (body : string) (prev_us : bool) (acc : Z) (digits : nat),
    scan_digits (body ++ post) prev_us acc digits =
    match scan_digits body prev_us acc digits with
    | Some (v, d, rest) => Some (v, d, rest ++ post)
    | None => None
    end.
Proof.
  intros Hpost. induction body as [| c t IH]; intros prev_us acc digits.
  - simpl. destruct post as [| c t]; [by destruct prev_us |].
    simpl in Hpost. apply andb_true_iff in Hpost as [Hc _].
    apply space_not_digit in Hc as [Hd Hu]. simpl. rewrite Hd, Hu.
    by destruct prev_us.
  - simpl. destruct (is_digit c); [apply IH |].
    destruct (is_underscore c); [destruct prev_us; [reflexivity | apply IH] |].
    by destruct prev_us.
Qed.

(** [int] ignores white space after the literal ... *)
Lemma py_int_ascii_suffix (s post : string) :
  all_spaces post = true -> py_int_ascii (s ++ post) = py_int_ascii s.
Proof.
  intros Hpost. unfold py_int_ascii. rewrite (skip_spaces_suffix s post Hpost).
  destruct (skip_spaces s) as [| c t] eqn:Hskip; [reflexivity |].
  assert (Hsplit : split_sign (String c t ++ post) =
                   (fst (split_sign (String c t)), snd (split_sign (String c t)) ++ post)).
  { simpl. destruct (code c =? 43)%nat; [reflexivity |].
    destruct (code c =? 45)%nat; reflexivity. }
  rewrite Hsplit. destruct (split_sign (String c t)) as [sign body]; simpl fst; simpl snd.
  assert (Hus : starts_with_underscore (body ++ post) = starts_with_underscore body).
  { destruct body as [| b rest]; [| reflexivity].
    destruct post as [| p rest]; [reflexivity |].
    simpl in Hpost. apply andb_true_iff in Hpost as [Hp _].
    apply space_not_digit in Hp as [_ Hu]. exact Hu. }
  rewrite Hus. destruct (starts_with_underscore body); [reflexivity |].
  rewrite (scan_digits_suffix post Hpost).
  destruct (scan_digits body false 0 0) as [[[v d] rest] |]; [| reflexivity].
  destruct (d =? 0)%nat; [reflexivity |].
  destruct (int_max_str_digits <? d)%nat; [reflexivity |].
  rewrite (skip_spaces_suffix rest post Hpost).
  by destruct (skip_spaces rest).
Qed.

(** ... and before it. *)
Lemma py_int_ascii_padding (pre core post : string) :
  all_spaces pre = true -> all_spaces post = true ->
  py_int_ascii (pre ++ core ++ post) = py_int_ascii core.
Proof.
  intros Hpre Hpost. rewrite <- (py_int_ascii_suffix core post Hpost).
  unfold py_int_ascii. by rewrite (skip_spaces_prefix pre _ Hpre).
Qed.

Lemma all_spaces_ascii (s : string) : all_spaces s = true -> is_ascii s = true.
Proof.
  induction s as [| c t IH]; simpl; [done |].
  intros [Hc Ht]%andb_true_iff. rewrite (IH Ht), andb_true_r.
  revert Hc. unfold is_space. generalize (code c) as n. intros n.
  rewrite orb_true_iff, andb_true_iff, !Nat.leb_le, Nat.eqb_eq, Nat.ltb_lt. lia.
Qed.

Lemma is_ascii_app (a b : string) :
  is_ascii (a ++ b) = is_ascii a && is_ascii b.
Proof.
  induction a as [| c t IH]; simpl; [reflexivity |].
  by rewrite IH, andb_assoc.
Qed.

(** On ASCII text [int] ignores the white space around the literal. *)
Lemma py_int_padding (env : Env) (pre core post : string) :
  all_spaces pre = true -> all_spaces post = true -> is_ascii core = true ->
  py_int env (Text (pre ++ core ++ post)) = py_int env (Text core).
Proof.
  intros Hpre Hpost Hcore.
  rewrite !py_int_on_ascii.
  - by apply py_int_ascii_padding.
  - exact Hcore.
  - rewrite !is_ascii_app, Hcore.
    by rewrite (all_spaces_ascii pre Hpre), (all_spaces_ascii post Hpost).
Qed.

(** X: the three classifier nodes read the model's answer through
    [int], so on an ASCII answer white space (blanks, tabs, line ends)
    before and after it changes nothing: each node returns on the padded
    answer what it returns on the bare one, a stored integer or
    [ValueError]. *)
Theorem classifier_answer_padding
    (env : Env) (config : Configuration) (s : State) (r : AIMessage)
    (pre core post : string) :
  ai_content r = Text (pre ++ core ++ post) ->
  all_spaces pre = true -> all_spaces post = true ->
  is_ascii core = true ->
  (ainvoke env (model config) [] (router_input env s) = OK r ->
   router env s config =
   (let! n := py_int_ascii core in OK {[ "router_stage" := VInt n ]})) /\
  (ainvoke env (model config) [] (determine_reschedule_or_cancel_input env s) = OK r ->
   determine_reschedule_or_cancel env s config =
   (let! n := py_int_ascii core in OK {[ "reschedule_or_cancel_decision" := VInt n ]})) /\
  (ainvoke env (model config) [] (determine_appointment_input env s) = OK r ->
   determine_appointment_to_cancel env s config =
   (let! n := py_int_ascii core in OK {[ "appointment_id" := VInt n ]})).
Proof.
  intros Hcontent Hpre Hpost Hcore.
  pose proof (py_int_padding env pre core post Hpre Hpost Hcore) as Hint.
  rewrite <- Hcontent, (py_int_on_ascii env core Hcore) in Hint.
  repeat split; intros Hr.
  - unfold router. rewrite Hr; simpl. by rewrite Hint.
  - unfold determine_reschedule_or_cancel.
    change (RoleContent "system" (DETERMINE_RESCHEDULE_OR_CANCEL_PROMPT (prompts env))
              :: history s)
      with (determine_reschedule_or_cancel_input env s).
    rewrite Hr; simpl. by rewrite Hint.
  - unfold determine_appointment_to_cancel. rewrite Hr; simpl. by rewrite Hint.
Qed.

Lemma classifier_answer_padding_witness :
  let env := scripted_env (" 3" ++ newline) "2" "2" plain_answer in
  let s := initial_state opening in
  router env s demo_config = OK {[ "router_stage" := VInt 3 ]}.
Proof.
  destruct (classifier_answer_padding
              (scripted_env (" 3" ++ newline) "2" "2" plain_answer) demo_config
              (initial_state opening)
              (mkAIMessage (" 3" ++ newline) [] (Some "run-1"))
              " " "3" newline eq_refl eq_refl eq_refl eq_refl) as [Hrouter _].
  apply (Hrouter eq_refl).
Defined.

(** ** Printing an integer and reading it back *)

(** The decimal form of an integer: digits, a minus sign for a negative
    number, no leading zero. *)
Definition decimal (n : Z) : string := NilEmpty.string_of_int (Z.to_int n).

Definition decimal_digits (n : Z) : nat := String.length (decimal (Z.abs n)).

(** Python's [str(n)] for an [int]: its decimal form, refused with
    [ValueError] beyond [int_max_str_digits] digits. *)
Definition py_str (n : Z) : Result string :=
  if (int_max_str_digits <? decimal_digits n)%nat then Raise ValueError
  else OK (decimal n).

(** [tools.cancel_appointment] *)
Definition cancel_appointment (appointment_id : Z) (config : Configuration)
  : Result string :=
  let! text := py_str appointment_id in
  OK ("Appointment " ++ text ++ " cancelled.").

(** The value [scan_digits] accumulates over a run of decimal digits. *)
Fixpoint uint_value (d : Decimal.uint) (acc : Z) : Z :=
  match d with
  | Decimal.Nil => acc
  | Decimal.D0 l => uint_value l (10 * acc + 0)
  | Decimal.D1 l => uint_value l (10 * acc + 1)
  | Decimal.D2 l => uint_value l (10 * acc + 2)
  | Decimal.D3 l => uint_value l (10 * acc + 3)
  | Decimal.D4 l => uint_value l (10 * acc + 4)
  | Decimal.D5 l => uint_value l (10 * acc + 5)
  | Decimal.D6 l => uint_value l (10 * acc + 6)
  | Decimal.D7 l => uint_value l (10 * acc + 7)
  | Decimal.D8 l => uint_value l (10 * acc + 8)
  | Decimal.D9 l => uint_value l (10 * acc + 9)
  end.

Lemma scan_digits_uint (d : Decimal.uint) :
  forall (acc : Z) (digits : nat),
    scan_digits (NilEmpty.string_of_uint d) false acc digits =
    Some (uint_value d acc, (digits + Decimal.nb_digits d)%nat, EmptyString).
Proof.
  induction d as [| l IH | l IH | l IH | l IH | l IH | l IH | l IH | l IH | l IH | l IH];
    intros acc digits;
    cbn [NilEmpty.string_of_uint scan_digits uint_value Decimal.nb_digits];
    [by rewrite Nat.add_0_r | ..];
    match goal with
    | |- context [is_digit ?c] =>
        change (is_digit c) with true;
        let v := eval vm_compute in (digit_value c) in
        change (digit_value c) with v
    end;
    cbv iota; rewrite IH, Nat.add_succ_r; reflexivity.
Qed.

Lemma uint_value_pos (d : Decimal.uint) :
  forall p : positive, uint_value d (Z.pos p) = Z.pos (Pos.of_uint_acc d p).
Proof.
  induction d as [| l IH | l IH | l IH | l IH | l IH | l IH | l IH | l IH | l IH | l IH];
    intros p; cbn [uint_value Pos.of_uint_acc]; [reflexivity | ..];
    rewrite <- IH; f_equal; lia.
Qed.

Lemma uint_value_zero (d : Decimal.uint) :
  uint_value d 0 = Z.of_N (Pos.of_uint d).
Proof.
  induction d as [| l IH | l IH | l IH | l IH | l IH | l IH | l IH | l IH | l IH | l IH];
    cbn [uint_value Pos.of_uint]; [reflexivity | exact IH | ..];
    match goal with
    | |- uint_value ?l (10 * 0 + ?v) = _ =>
        change (10 * 0 + v) with v; apply (uint_value_pos l)
    end.
Qed.

Lemma string_of_uint_plain (d : Decimal.uint) :
  skip_spaces (NilEmpty.string_of_uint d) = NilEmpty.string_of_uint d /\
  split_sign (NilEmpty.string_of_uint d) = (1, NilEmpty.string_of_uint d) /\
  starts_with_underscore (NilEmpty.string_of_uint d) = false.
Proof. destruct d; repeat split; reflexivity. Qed.

Lemma string_of_uint_length (d : Decimal.uint) :
  String.length (NilEmpty.string_of_uint d) = Decimal.nb_digits d.
Proof. induction d; simpl; congruence. Qed.

Lemma py_int_ascii_signed (s : string) (sign : Z) (p : positive) :
  split_sign (skip_spaces s) = (sign, NilEmpty.string_of_uint (Pos.to_uint p)) ->
  (Decimal.nb_digits (Pos.to_uint p) <= int_max_str_digits)%nat ->
  py_int_ascii s = OK (sign * Z.pos p).
Proof.
  intros Hsplit Hlen. unfold py_int_ascii. rewrite Hsplit. cbv beta iota.
  destruct (string_of_uint_plain (Pos.to_uint p)) as (_ & _ & ->).
  rewrite scan_digits_uint, uint_value_zero.
  rewrite DecimalPos.Unsigned.of_to. cbn [Z.of_N Nat.add].
  assert (Hnz : Decimal.nb_digits (Pos.to_uint p) <> 0%nat).
  { intros Hz. pose proof (DecimalPos.Unsigned.of_to p) as Hof.
    destruct (Pos.to_uint p); try discriminate Hz. discriminate Hof. }
  apply Nat.eqb_neq in Hnz. rewrite Hnz.
  apply Nat.ltb_ge in Hlen. rewrite Hlen. reflexivity.
Qed.

Lemma string_of_uint_ascii (d : Decimal.uint) :
  is_ascii (NilEmpty.string_of_uint d) = true.
Proof. induction d; simpl; assumption || reflexivity. Qed.

Lemma decimal_ascii (n : Z) : is_ascii (decimal n) = true.
Proof.
  destruct n as [| p | p]; [reflexivity | |]; unfold decimal; cbn [Z.to_int];
    cbn [NilEmpty.string_of_int]; [| cbn [is_ascii]]; by rewrite string_of_uint_ascii.
Qed.

(** Reading a decimal form back gives the integer, up to the digit limit. *)
Lemma py_int_ascii_decimal (n : Z) :
  (decimal_digits n <= int_max_str_digits)%nat ->
  py_int_ascii (decimal n) = OK n.
Proof.
  unfold decimal_digits.
  destruct n as [| p | p]; [reflexivity | |]; unfold decimal; cbn [Z.abs Z.to_int];
    cbn [NilEmpty.string_of_int]; intros Hlen;
    change (String.length (NilEmpty.string_of_uint (Pos.to_uint p))
            <= int_max_str_digits)%nat in Hlen;
    rewrite string_of_uint_length in Hlen.
  - change (Z.pos p) with (1 * Z.pos p). apply py_int_ascii_signed; [| exact Hlen].
    destruct (string_of_uint_plain (Pos.to_uint p)) as (-> & -> & _). reflexivity.
  - change (Z.neg p) with (-1 * Z.pos p). apply py_int_ascii_signed; [| exact Hlen].
    reflexivity.
Qed.

Lemma py_str_cases (n : Z) (text : string) :
  py_str n = OK text <->
  (decimal_digits n <= int_max_str_digits)%nat /\ text = decimal n.
Proof.
  unfold py_str.
  destruct (Nat.ltb_spec int_max_str_digits (decimal_digits n)); split.
  - discriminate.
  - intros [Hle _]. lia.
  - intros [= <-]. by split.
  - by intros [_ ->].
Qed.

(** [int(str(n))] is [n]. *)
Lemma py_int_py_str (env : Env) (n : Z) (text : string) :
  py_str n = OK text -> py_int env (Text text) = OK n.
Proof.
  intros [Hlen ->]%py_str_cases.
  rewrite (py_int_on_ascii env _ (decimal_ascii n)).
  by apply py_int_ascii_decimal.
Qed.

(** X: when the appointment-selection classifier answers with an integer
    written the way Python prints it (white space around it allowed), the
    node stores exactly that integer: an appointment id echoed by the
    model is never altered by the parse. *)
Theorem echoed_id_is_stored
    (env : Env) (config : Configuration) (s : State) (r : AIMessage)
    (n : Z) (text pre post : string) :
  ainvoke env (model config) [] (determine_appointment_input env s) = OK r ->
  py_str n = OK text ->
  ai_content r = Text (pre ++ text ++ post) ->
  all_spaces pre = true -> all_spaces post = true ->
  determine_appointment_to_cancel env s config = OK {[ "appointment_id" := VInt n ]} /\
  appointment_id
    (apply_update s {[ "appointment_id" := VInt n ]}) = n.
Proof.
  intros Hr Hstr Hcontent Hpre Hpost. split.
  - unfold determine_appointment_to_cancel. rewrite Hr; simpl.
    rewrite Hcontent, (py_int_padding env pre text post Hpre Hpost).
    + by rewrite (py_int_py_str env n text Hstr).
    + apply py_str_cases in Hstr as [_ ->]. apply decimal_ascii.
  - by rewrite apply_update_appointment_id.
Qed.

Lemma echoed_id_is_stored_witness :
  let env := scripted_env "3" "2" ("-1" ++ newline) plain_answer in
  let s := mkState opening 3 2 fixture 0 false in
  py_str (-1) = OK "-1" /\
  determine_appointment_to_cancel env s demo_config =
    OK {[ "appointment_id" := VInt (-1) ]} /\
  appointment_id (apply_update s {[ "appointment_id" := VInt (-1) ]}) = -1.
Proof.
  split; [reflexivity |].
  apply (echoed_id_is_stored
           (scripted_env "3" "2" ("-1" ++ newline) plain_answer) demo_config
           (mkState opening 3 2 fixture 0 false)
           (mkAIMessage ("-1" ++ newline) [] (Some "run-3"))
           (-1) "-1" "" newline eq_refl eq_refl eq_refl eq_refl eq_refl).
Defined.

(** ** The cancellation message *)

Lemma append_length (a b : string) :
  String.length (a ++ b) = (String.length a + String.length b)%nat.
Proof. induction a as [| c a IH]; simpl; [reflexivity | by rewrite IH]. Qed.

Lemma append_inv_tail (a b tail : string) : a ++ tail = b ++ tail -> a = b.
Proof.
  revert b. induction a as [| c a IH]; intros [| d b] Heq; simpl in Heq.
  - reflexivity.
  - apply (f_equal String.length) in Heq.
    rewrite !append_length in Heq. cbn [String.length] in Heq. lia.
  - apply (f_equal String.length) in Heq.
    rewrite !append_length in Heq. cbn [String.length] in Heq. lia.
  - injection Heq as -> Heq. f_equal. by apply IH.
Qed.

Lemma decimal_inj (a b : Z) : decimal a = decimal b -> a = b.
Proof.
  unfold decimal. intros Heq.
  apply (f_equal NilEmpty.int_of_string) in Heq.
  rewrite !NilEmpty.isi in Heq. injection Heq as Heq.
  apply (f_equal Z.of_int) in Heq. by rewrite !DecimalZ.of_to in Heq.
Qed.

Lemma cancel_appointment_cases (a : Z) (config : Configuration) :
  cancel_appointment a config =
  if (int_max_str_digits <? decimal_digits a)%nat then Raise ValueError
  else OK ("Appointment " ++ decimal a ++ " cancelled.").
Proof.
  unfold cancel_appointment, py_str.
  by destruct (int_max_str_digits <? decimal_digits a)%nat.
Qed.

(** X: [cancel_appointment] raises [ValueError] exactly when the id has
    more decimal digits than Python agrees to print, and otherwise names
    the appointment it is given: the text is the id's decimal form between
    two fixed parts, two successful calls return the same text exactly
    when they are given the same id, whatever the configuration, and
    [int] reads the id back from the middle of the text. *)
Theorem cancel_appointment_names_the_id
    (env : Env) (a b : Z) (config config' : Configuration) :
  (cancel_appointment a config = Raise ValueError <->
     (int_max_str_digits < decimal_digits a)%nat) /\
  ((decimal_digits a <= int_max_str_digits)%nat ->
   cancel_appointment a config = OK ("Appointment " ++ decimal a ++ " cancelled.")) /\
  (forall text : string,
     cancel_appointment a config = OK text ->
     (cancel_appointment b config' = OK text <-> a = b) /\
     exists middle : string,
       text = "Appointment " ++ middle ++ " cancelled." /\
       py_int env (Text middle) = OK a).
Proof.
  rewrite (cancel_appointment_cases a config), (cancel_appointment_cases b config').
  destruct (Nat.ltb_spec int_max_str_digits (decimal_digits a)) as [Hover | Hfits].
  - split; [by split |]. split; [intros Hfits; exfalso; lia | discriminate].
  - split; [split; [discriminate | lia] |]. split; [reflexivity |].
    intros text [= <-]. split.
    + split.
      * destruct (int_max_str_digits <? decimal_digits b)%nat; [discriminate |].
        intros [= Heq]. symmetry. apply decimal_inj.
        apply (append_inv_tail (decimal b) (decimal a) " cancelled.").
        simpl in Heq. exact Heq.
      * intros <-. apply Nat.ltb_ge in Hfits. by rewrite Hfits.
    + exists (decimal a). split; [reflexivity |].
      rewrite (py_int_on_ascii env _ (decimal_ascii a)).
      by apply py_int_ascii_decimal.
Qed.

Lemma cancel_appointment_names_the_id_witness :
  cancel_appointment 2 demo_config = OK "Appointment 2 cancelled." /\
  cancel_appointment 1 demo_config <> OK "Appointment 2 cancelled.".
Proof.
  destruct (cancel_appointment_names_the_id failing_env 2 1 demo_config demo_config)
    as (_ & Hfits & Hsame).
  assert (Htext : cancel_appointment 2 demo_config = OK "Appointment 2 cancelled.").
  { apply Hfits. apply Nat.leb_le. reflexivity. }
  split; [exact Htext |].
  intros Heq. destruct (Hsame _ Htext) as [Hiff _].
  apply Hiff in Heq. discriminate Heq.
Defined.

(** ** The message history, node by node *)




